(** * Branch-out automation for GitHub and Fabric: a shallow embedding

    The script [BranchOut-Feature-Workspace-Automation-GitHub.py] is a linear
    orchestration of HTTP calls.  It is embedded here as functions of a small
    state-and-exception monad: the state holds the module globals, the state
    of the remote services, the calls made through [requests] and
    [time.sleep], and the log records.  The remote services are a parameter
    of the development: every statement is about what the script does with
    the responses it is given. *)

From Stdlib Require Import String Ascii List ZArith Bool Lia.
Import ListNotations.
Local Open Scope string_scope.
Local Open Scope Z_scope.
Set Warnings "-register-all".

(** ** Python values *)

(** A parsed JSON document, as [response.json()] yields it.  An object keeps
    its members in document order, which is the order Python iterates a
    dict in.  [JNull] is Python's [None].  Numbers are integers; the script
    never computes with them. *)
Inductive json : Type :=
| JNull
| JBool (b : bool)
| JNum (z : Z)
| JStr (s : string)
| JArr (items : list json)
| JObj (members : list (string * json)).

(** The exceptions that can travel through the script. *)
Inductive exn : Type :=
| ValueError (msg : string)
| ConnectionError (detail : string)
| HTTPError (status : Z)
| JSONDecodeError
| MissingSchema
| KeyError (key : string)
| TypeError (detail : string)
| AttributeError (detail : string)
| LibraryError (detail : string)
| SystemExit (code : Z).

(** [isinstance(e, requests.exceptions.RequestException)] *)
Definition is_RequestException (e : exn) : bool :=
  match e with
  | ConnectionError _ | HTTPError _ | JSONDecodeError | MissingSchema => true
  | _ => false
  end.

(** [isinstance(e, Exception)]: everything but [SystemExit]. *)
Definition is_Exception (e : exn) : bool :=
  match e with
  | SystemExit _ => false
  | _ => true
  end.

(** How a computation ends: with a value, with an exception, or not within
    the number of loop iterations it was allowed. *)
Inductive outcome (A : Type) : Type :=
| Returns (a : A)
| Raises (e : exn)
| Diverges.
Arguments Returns {A} a.
Arguments Raises {A} e.
Arguments Diverges {A}.

(** [str(x)], the conversion behind f-strings and [%s]. *)
Class Str (A : Type) := str : A -> string.

#[export] Instance Str_string : Str string := fun s => s.
#[export] Instance Str_option_string : Str (option string) :=
  fun o => match o with Some s => s | None => "None" end.

Fixpoint dict_get (k : string) (members : list (string * json)) : option json :=
  match members with
  | [] => None
  | (k', v) :: rest => if String.eqb k k' then Some v else dict_get k rest
  end.

(** [k in d] for a dict. *)
Definition dict_has (k : string) (members : list (string * json)) : bool :=
  match dict_get k members with Some _ => true | None => false end.

(** [v.get(k)]: only a dict has the method. *)
Definition py_get (v : json) (k : string) : outcome json :=
  match v with
  | JObj members =>
      Returns (match dict_get k members with Some x => x | None => JNull end)
  | _ => Raises (AttributeError "get")
  end.

(** [v.get(k, default)] *)
Definition py_get_default (v : json) (k : string) (default : json) : outcome json :=
  match v with
  | JObj members =>
      Returns (match dict_get k members with Some x => x | None => default end)
  | _ => Raises (AttributeError "get")
  end.

(** [v[k]] for a string key [k]. *)
Definition py_index (v : json) (k : string) : outcome json :=
  match v with
  | JObj members =>
      match dict_get k members with
      | Some x => Returns x
      | None => Raises (KeyError k)
      end
  | _ => Raises (TypeError "subscript")
  end.

(** Truth value of a Python object, as [if x:] and [not x] test it. *)
Definition truthy (v : json) : bool :=
  match v with
  | JNull => false
  | JBool b => b
  | JNum z => negb (z =? 0)
  | JStr s => negb (String.eqb s "")
  | JArr items => match items with [] => false | _ => true end
  | JObj members => match members with [] => false | _ => true end
  end.

Definition truthy_str (s : string) : bool := negb (String.eqb s "").

(** [v == s] for a str [s]. *)
Definition eq_str (v : json) (s : string) : bool :=
  match v with
  | JStr s' => String.eqb s' s
  | _ => false
  end.

(** [v in candidates] for a list of str literals. *)
Definition in_strs (v : json) (candidates : list string) : bool :=
  existsb (eq_str v) candidates.

Fixpoint chars (s : string) : list json :=
  match s with
  | EmptyString => []
  | String c rest => JStr (String c EmptyString) :: chars rest
  end.

(** The items a [for] loop over [v] visits. *)
Definition py_iter (v : json) : outcome (list json) :=
  match v with
  | JArr items => Returns items
  | JObj members => Returns (map (fun kv => JStr (fst kv)) members)
  | JStr s => Returns (chars s)
  | _ => Raises (TypeError "not iterable")
  end.

(** [s.rstrip(chars)] for a one-character [chars]. *)
Fixpoint rstrip (c : ascii) (s : string) : string :=
  match s with
  | EmptyString => EmptyString
  | String a rest =>
      match rstrip c rest with
      | EmptyString => if Ascii.eqb a c then EmptyString else String a EmptyString
      | rest' => String a rest'
      end
  end.

(** [k] copies of the character [c]. *)
Fixpoint replicate (k : nat) (c : ascii) : string :=
  match k with
  | O => EmptyString
  | S k' => String c (replicate k' c)
  end.

(** [s.endswith(c)] *)
Fixpoint ends_with (c : ascii) (s : string) : bool :=
  match s with
  | EmptyString => false
  | String a EmptyString => Ascii.eqb a c
  | String _ rest => ends_with c rest
  end.

(** Lower case of an ASCII letter, the character itself otherwise. *)
Definition lower_char (c : ascii) : ascii :=
  let n := nat_of_ascii c in
  if ((65 <=? n) && (n <=? 90))%nat then ascii_of_nat (n + 32) else c.

Fixpoint lower (s : string) : string :=
  match s with
  | EmptyString => EmptyString
  | String c rest => String (lower_char c) (lower rest)
  end.

(** ** HTTP and the world *)

Inductive http_method : Type := GET | POST.

Record request : Type := mk_request {
  meth : http_method;
  url : string;
  req_headers : list (string * string);
  req_json : option json
}.

(** What the script reads of a [requests.Response]; [body] is [None] when
    the text is not JSON and [response.json()] raises. *)
Record response : Type := mk_response {
  status_code : Z;
  text : string;
  resp_headers : list (string * string);
  body : option json
}.

(** A call through [requests] either gets a response or raises a
    [RequestException] of the transport. *)
Inductive reply : Type :=
| Responds (r : response)
| Fails (detail : string).

Inductive event : Type :=
| Http (r : request)
| Sleep (seconds : nat).

Inductive level : Type := INFO | ERROR.

Inductive log_arg : Type :=
| AStr (s : string)
| ANone
| AVal (v : json)
| AInt (z : Z)
| AExn (e : exn)
| ADumps (v : json).

Record log_record : Type := mk_log {
  log_level : level;
  log_format : string;
  log_args : list log_arg
}.

Definition AOpt (o : option string) : log_arg :=
  match o with Some s => AStr s | None => ANone end.

(** The module globals bound by [set_main_parameters].  The optional
    command-line arguments are [None] when absent. *)
Record Globals : Type := mk_globals {
  FABRIC_API_URL : string;
  GH_API_URL : string;
  CAPACITY_ID : string;
  WORKSPACE_NAME : string;
  DEVELOPER : string;
  GH_MAIN_BRANCH : string;
  GH_NEW_BRANCH : option string;
  GH_GIT_FOLDER : string;
  GH_OWNER : string;
  GH_REPO_NAME : string;
  CLIENT_ID : option string;
  CLIENT_SECRET : string;
  TENANT_ID : option string;
  USERNAME : option string;
  PASSWORD : option string;
  FABRIC_TOKEN : string;
  GH_PAT_TOKEN : string
}.

Definition initial_globals : Globals :=
  {| FABRIC_API_URL := "https://api.fabric.microsoft.com/v1";
     GH_API_URL := "https://api.github.com";
     CAPACITY_ID := "";
     WORKSPACE_NAME := "";
     DEVELOPER := "";
     GH_MAIN_BRANCH := "";
     GH_NEW_BRANCH := Some "";
     GH_GIT_FOLDER := "";
     GH_OWNER := "";
     GH_REPO_NAME := "";
     CLIENT_ID := Some "";
     CLIENT_SECRET := "";
     TENANT_ID := Some "";
     USERNAME := Some "";
     PASSWORD := Some "";
     FABRIC_TOKEN := "";
     GH_PAT_TOKEN := "" |}.

(** The namespace [argparse] returns. *)
Record Args : Type := mk_args {
  arg_TENANT_ID : option string;
  arg_CLIENT_ID : option string;
  arg_USER_NAME : option string;
  arg_PASSWORD : option string;
  arg_WORKSPACE_NAME : string;
  arg_DEVELOPER : string;
  arg_GH_MAIN_BRANCH : string;
  arg_GH_GIT_FOLDER : string;
  arg_GH_NEW_BRANCH : option string;
  arg_GH_OWNER : string;
  arg_GH_REPO_NAME : string;
  arg_GH_API_URL : string;
  arg_CAPACITY_ID : string;
  arg_FABRIC_TOKEN : string;
  arg_GH_PAT_TOKEN : string
}.

(** The state a run threads: the module globals, the state of the remote
    services, the calls made through [requests] and [time.sleep] in order,
    and the log records in order. *)
Record World (Remote : Type) : Type := mk_world {
  globals : Globals;
  remote : Remote;
  events : list event;
  log : list log_record
}.
Arguments mk_world {Remote}.
Arguments globals {Remote}.
Arguments remote {Remote}.
Arguments events {Remote}.
Arguments log {Remote}.

(** ** Remote services for concrete runs *)

(** A scripted service: its state is the list of the replies still to give,
    handed out one per call whatever the call is; past the end of the
    script every call fails. *)
Definition scripted (rq : request) (script : list reply) : reply * list reply :=
  match script with
  | [] => (Fails "no reply scripted", [])
  | answer :: rest => (answer, rest)
  end.

(** A response with a JSON body and no headers. *)
Definition json_response (status : Z) (v : json) : response :=
  mk_response status "" [] (Some v).

(** An operation state with the given status. *)
Definition operation (status : string) : response :=
  json_response 200 (JObj [("status", JStr status)]).

(** An identity provider that issues no token. *)
Definition no_identity (tenant_id client_id user_name password : option string)
    : exn + list (string * json) :=
  inr [("error", JStr "invalid_grant")].

(** The command line of a run for a feature branch, with the given Fabric
    token and PAT. *)
Definition args_with (fabric_token pat_token : string) : Args :=
  {| arg_TENANT_ID := None;
     arg_CLIENT_ID := None;
     arg_USER_NAME := None;
     arg_PASSWORD := None;
     arg_WORKSPACE_NAME := "feature-ws";
     arg_DEVELOPER := "dev@example.com";
     arg_GH_MAIN_BRANCH := "main";
     arg_GH_GIT_FOLDER := "fabric/";
     arg_GH_NEW_BRANCH := Some "feature";
     arg_GH_OWNER := "octo";
     arg_GH_REPO_NAME := "analytics";
     arg_GH_API_URL := "https://api.github.com";
     arg_CAPACITY_ID := "cap-1";
     arg_FABRIC_TOKEN := fabric_token;
     arg_GH_PAT_TOKEN := pat_token |}.

(** The globals once such a command line, with both tokens, is bound. *)
Definition sample_globals : Globals :=
  {| FABRIC_API_URL := "https://api.fabric.microsoft.com/v1";
     GH_API_URL := "https://api.github.com";
     CAPACITY_ID := "cap-1";
     WORKSPACE_NAME := "feature-ws";
     DEVELOPER := "dev@example.com";
     GH_MAIN_BRANCH := "main";
     GH_NEW_BRANCH := Some "feature";
     GH_GIT_FOLDER := "fabric/";
     GH_OWNER := "octo";
     GH_REPO_NAME := "analytics";
     CLIENT_ID := None;
     CLIENT_SECRET := "";
     TENANT_ID := None;
     USERNAME := None;
     PASSWORD := None;
     FABRIC_TOKEN := "fabric-token";
     GH_PAT_TOKEN := "ghp_example" |}.

(** A world at the start of a script: the sample globals, no call made and
    nothing logged. *)
Definition start (script : list reply) : World (list reply) :=
  mk_world sample_globals script [] [].

(** Renderings of exceptions and of JSON values for concrete runs. *)
Definition plain_exn (e : exn) : string := "exception".
Definition plain_json (v : json) : string := "value".

(** ** The monad of the script *)

Section Script.

(** The state of the remote services and the way they answer a call made
    through [requests]. *)
Variable Remote : Type.
Variable serve : request -> Remote -> reply * Remote.

(** The identity library: what [acquire_token_by_username_password] gives
    for a tenant, client, user name and password, a result dict or an
    exception of the library. *)
Variable identity :
  option string -> option string -> option string -> option string ->
  exn + list (string * json).

(** [str] of an exception and of a JSON value that is not a string are left
    to Python. *)
Variable render_exn : exn -> string.
Variable render_json : json -> string.

Definition Str_exn : Str exn := render_exn.
Definition Str_json : Str json :=
  fun v => match v with JStr s => s | _ => render_json v end.
Existing Instance Str_exn.
Existing Instance Str_json.

Definition M (A : Type) : Type := World Remote -> outcome A * World Remote.

Definition ret {A} (a : A) : M A := fun w => (Returns a, w).

Definition bind {A B} (m : M A) (k : A -> M B) : M B :=
  fun w =>
    match m w with
    | (Returns a, w') => k a w'
    | (Raises e, w') => (Raises e, w')
    | (Diverges, w') => (Diverges, w')
    end.

Definition raise {A} (e : exn) : M A := fun w => (Raises e, w).

Definition diverge {A} : M A := fun w => (Diverges, w).

(** [try: body except <class> as e: handler e] *)
Definition try_except {A} (body : M A) (class : exn -> bool) (handler : exn -> M A) : M A :=
  fun w =>
    match body w with
    | (Raises e, w') => if class e then handler e w' else (Raises e, w')
    | r => r
    end.

(** The result of a pure operation that may raise. *)
Definition lift {A} (r : outcome A) : M A := fun w => (r, w).

(** The result of a call into a library that returns or raises. *)
Definition external {A} (r : exn + A) : M A :=
  fun w => match r with inl e => (Raises e, w) | inr a => (Returns a, w) end.

Definition read_globals : M Globals := fun w => (Returns (globals w), w).

Definition write_globals (g : Globals) : M unit :=
  fun w => (Returns tt,
            {| globals := g; remote := remote w; events := events w; log := log w |}).

Definition emit (e : event) : M unit :=
  fun w => (Returns tt,
            {| globals := globals w; remote := remote w;
               events := events w ++ [e]; log := log w |}).

Definition logging (l : level) (format : string) (args : list log_arg) : M unit :=
  fun w => (Returns tt,
            {| globals := globals w; remote := remote w; events := events w;
               log := log w ++ [mk_log l format args] |}).

Definition time_sleep (seconds : nat) : M unit := emit (Sleep seconds).

(** One call through [requests]: the call is recorded, the services answer
    and move to their next state. *)
Definition send (r : request) : M response :=
  fun w =>
    let (answer, remote') := serve r (remote w) in
    let w' := {| globals := globals w; remote := remote';
                 events := events w ++ [Http r]; log := log w |} in
    match answer with
    | Responds resp => (Returns resp, w')
    | Fails detail => (Raises (ConnectionError detail), w')
    end.

Definition requests_get (u : string) (headers : list (string * string)) : M response :=
  send (mk_request GET u headers None).

Definition requests_post (u : string) (headers : list (string * string))
    (data : option json) : M response :=
  send (mk_request POST u headers data).

(** [response.raise_for_status()] *)
Definition raise_for_status (r : response) : M unit :=
  if (400 <=? status_code r) && (status_code r <? 600)
  then raise (HTTPError (status_code r))
  else ret tt.

(** [response.json()] *)
Definition response_json (r : response) : M json :=
  match body r with
  | Some v => ret v
  | None => raise JSONDecodeError
  end.

Notation "x <- m ;; k" := (bind m (fun x => k))
  (at level 61, m at next level, right associativity).
Notation "m ;;; k" := (bind m (fun _ => k))
  (at level 61, right associativity).


(** ** Auth helpers *)

Definition acquire_token_user_id_password
    (tenant_id client_id user_name password : option string) : M json :=
  result <- external (identity tenant_id client_id user_name password) ;;
  if dict_has "access_token" result
  then lift (py_index (JObj result) "access_token")
  else
    logging ERROR "Error: Fabric token could not be obtained: %s" [AVal (JObj result)] ;;;
    ret JNull.

(** ** Fabric helpers *)

Definition create_fabric_workspace (workspace_name cpty_id : string) (token : json) : M json :=
  try_except
    (logging INFO "Creating Fabric Workspace %s..." [AStr workspace_name] ;;;
     g <- read_globals ;;
     let headers := [("Authorization", "Bearer " ++ str token)] in
     let data := JObj [("displayName", JStr workspace_name); ("capacityId", JStr cpty_id)] in
     response <- requests_post (FABRIC_API_URL g ++ "/workspaces") headers (Some data) ;;
     logging INFO "Fabric workspace create response: %s - %s"
       [AInt (status_code response); AStr (text response)] ;;;
     if status_code response =? 409 then
       logging ERROR "Workspace '%s' already exists." [AStr workspace_name] ;;;
       raise (ValueError
                "Fabric workspace already exists. Please specify a new workspace as target.")
     else if status_code response =? 201 then
       created <- response_json response ;;
       workspace_id <- lift (py_get created "id") ;;
       logging INFO "Fabric Workspace %s created with ID: %s"
         [AStr workspace_name; AVal workspace_id] ;;;
       ret workspace_id
     else
       logging ERROR "Could not create workspace. Error: %s" [AStr (text response)] ;;;
       ret JNull)
    is_RequestException
    (fun e => logging ERROR "Error creating workspace: %s" [AExn e] ;;; ret JNull).

Definition add_workspace_admins (workspace_id : json) (developer : string) (token : json)
    : M unit :=
  try_except
    (logging INFO "Adding developer %s to workspace %s as Admin"
       [AStr developer; AVal workspace_id] ;;;
     let headers := [("Authorization", "Bearer " ++ str token)] in
     let data := JObj [("emailAddress", JStr developer);
                       ("groupUserAccessRight", JStr "Admin")] in
     response <- requests_post
       ("https://api.powerbi.com/v1.0/myorg/admin/groups/" ++ str workspace_id ++ "/users")
       headers (Some data) ;;
     raise_for_status response ;;;
     logging INFO "Admin added" [])
    is_RequestException
    (fun e => logging ERROR "Error adding workspace admin: %s" [AExn e]).

(** ** GitHub helpers *)

Definition _github_headers (token : string) : list (string * string) :=
  [("Authorization", "Bearer " ++ token);
   ("Accept", "application/vnd.github+json");
   ("Content-Type", "application/json")].

(** The URL of the reference of a branch. *)
Definition ref_url (api owner repo_name : string) (branch_name : option string) : string :=
  api ++ "/repos/" ++ owner ++ "/" ++ repo_name ++ "/git/ref/heads/" ++ str branch_name.

Definition get_github_branch_sha (owner repo_name branch_name token : string) : M json :=
  try_except
    (logging INFO "Retrieving SHA for branch '%s'" [AStr branch_name] ;;;
     g <- read_globals ;;
     response <- requests_get (ref_url (GH_API_URL g) owner repo_name (Some branch_name))
                   (_github_headers token) ;;
     raise_for_status response ;;;
     found <- response_json response ;;
     object <- lift (py_index found "object") ;;
     sha <- lift (py_index object "sha") ;;
     logging INFO "Found base SHA %s for branch %s" [AVal sha; AStr branch_name] ;;;
     ret sha)
    is_RequestException
    (fun e => logging ERROR "Error getting GitHub branch SHA: %s" [AExn e] ;;; ret JNull).

Definition branch_exists (owner repo_name : string) (branch_name : option string)
    (token : string) : M bool :=
  try_except
    (g <- read_globals ;;
     response <- requests_get (ref_url (GH_API_URL g) owner repo_name branch_name)
                   (_github_headers token) ;;
     ret (status_code response =? 200))
    is_RequestException
    (fun _ => ret false).

(** The URL that creates a reference. *)
Definition refs_url (api owner repo_name : string) : string :=
  api ++ "/repos/" ++ owner ++ "/" ++ repo_name ++ "/git/refs".

Definition create_github_branch (owner repo_name main_branch : string)
    (new_branch : option string) (token : string) : M unit :=
  if negb (truthy_str token)
  then raise (ValueError "GitHub PAT token is required to create branches.")
  else
    exists_already <- branch_exists owner repo_name new_branch token ;;
    if (exists_already : bool) then
      logging INFO "GitHub branch '%s' already exists, skipping creation" [AOpt new_branch]
    else
      base_sha <- get_github_branch_sha owner repo_name main_branch token ;;
      if negb (truthy base_sha)
      then raise (ValueError ("Could not find base branch '" ++ main_branch ++ "' in repo '"
                              ++ owner ++ "/" ++ repo_name ++ "'."))
      else
        try_except
          (logging INFO "Creating GitHub branch '%s' from '%s'..."
             [AOpt new_branch; AStr main_branch] ;;;
           g <- read_globals ;;
           let payload := JObj [("ref", JStr ("refs/heads/" ++ str new_branch));
                                ("sha", base_sha)] in
           response <- requests_post (refs_url (GH_API_URL g) owner repo_name)
                         (_github_headers token) (Some payload) ;;
           raise_for_status response ;;;
           logging INFO "GitHub branch '%s' created" [AOpt new_branch])
          is_RequestException
          (fun e => logging ERROR "Error creating GitHub branch: %s" [AExn e] ;;; raise e).

(** ** Fabric connection helpers *)

Definition _fabric_headers (token : json) : list (string * string) :=
  [("Authorization", "Bearer " ++ str token);
   ("Content-Type", "application/json")].

Definition list_connections (token : json) : M json :=
  try_except
    (g <- read_globals ;;
     resp <- requests_get (FABRIC_API_URL g ++ "/connections") (_fabric_headers token) ;;
     raise_for_status resp ;;;
     data <- response_json resp ;;
     match data with
     | JObj members =>
         if dict_has "value" members
         then lift (py_index data "value")
         else ret (JArr [])
     | JArr _ => ret data
     | _ => ret (JArr [])
     end)
    is_RequestException
    (fun e => logging ERROR "Error listing Fabric connections: %s" [AExn e] ;;;
              ret (JArr [])).

(** The [for c in connections] loop of [get_or_create_github_pat_connection]:
    [Some cid] when the loop returns [cid], [None] when it runs to its end. *)
Fixpoint find_connection (connection_name : string) (connections : list json)
    : M (option json) :=
  match connections with
  | [] => ret None
  | c :: rest =>
      display_name <- lift (py_get c "displayName") ;;
      if eq_str display_name connection_name then
        cid <- lift (py_get c "id") ;;
        if truthy cid then
          logging INFO "Found existing GitHub connection '%s' with ID: %s"
            [AStr connection_name; AVal cid] ;;;
          ret (Some cid)
        else find_connection connection_name rest
      else find_connection connection_name rest
  end.

(** The request body that creates a connection. *)
Definition connection_body (connection_name pat_token : string) : json :=
  JObj [("connectivityType", JStr "ShareableCloud");
        ("displayName", JStr connection_name);
        ("connectionDetails",
         JObj [("type", JStr "GitHubSourceControl");
               ("creationMethod", JStr "GitHubSourceControl.Contents")]);
        ("credentialDetails",
         JObj [("credentials",
                JObj [("credentialType", JStr "Key");
                      ("key", JStr pat_token)])])].

Definition get_or_create_github_pat_connection (connection_name pat_token : string)
    (token : json) : M json :=
  if negb (truthy_str pat_token) then
    logging ERROR "GitHub PAT token is required to create or use a GitHub connection." [] ;;;
    ret JNull
  else
    connections <- list_connections token ;;
    items <- lift (py_iter connections) ;;
    found <- find_connection connection_name items ;;
    match found with
    | Some cid => ret cid
    | None =>
        let body := connection_body connection_name pat_token in
        try_except
          (logging INFO "Creating GitHub PAT connection '%s'..." [AStr connection_name] ;;;
           g <- read_globals ;;
           resp <- requests_post (FABRIC_API_URL g ++ "/connections")
                     (_fabric_headers token) (Some body) ;;
           if status_code resp =? 201 then
             created <- response_json resp ;;
             cid <- lift (py_get created "id") ;;
             logging INFO "GitHub connection created with ID: %s" [AVal cid] ;;;
             ret cid
           else
             logging ERROR "Failed to create GitHub connection. Status: %s - %s"
               [AInt (status_code resp); AStr (text resp)] ;;;
             ret JNull)
          is_RequestException
          (fun e => logging ERROR "Error creating GitHub connection: %s" [AExn e] ;;;
                    ret JNull)
    end.

(** The folder sent as [directoryName]: blank for the root, otherwise the
    path without trailing slash. *)
Definition directory_name (git_folder : string) : string :=
  if truthy_str git_folder
     && negb (existsb (String.eqb git_folder) ["/"; "\"])
  then rstrip "/"%char git_folder
  else "".

(** The URL of the git-connect call. *)
Definition connect_url (api : string) (workspace_id : json) : string :=
  api ++ "/workspaces/" ++ str workspace_id ++ "/git/connect".

(** The request body of the git-connect call. *)
Definition connect_body (org_name repo_name : string) (branch_name : option string)
    (directory : string) (connection_id : json) : json :=
  JObj [("gitProviderDetails",
         JObj [("ownerName", JStr org_name);
               ("gitProviderType", JStr "GitHub");
               ("repositoryName", JStr repo_name);
               ("branchName", match branch_name with Some b => JStr b | None => JNull end);
               ("directoryName", JStr directory)]);
        ("myGitCredentials",
         JObj [("source", JStr "ConfiguredConnection");
               ("connectionId", connection_id)])].

Definition connect_branch_to_workspace (workspace_id : json) (org_name repo_name : string)
    (branch_name : option string) (git_folder : string) (token : json) : M unit :=
  try_except
    (logging INFO "Connecting workspace %s to GitHub branch %s at folder %s"
       [AVal workspace_id; AOpt branch_name; AStr git_folder] ;;;
     let headers := _fabric_headers token in
     let directory := directory_name git_folder in
     let connection_display_name := "GitHub PAT - " ++ org_name ++ "/" ++ repo_name in
     g <- read_globals ;;
     connection_id <- get_or_create_github_pat_connection connection_display_name
                        (GH_PAT_TOKEN g) token ;;
     if negb (truthy connection_id) then
       logging ERROR "Failed to acquire GitHub credentials connection. Aborting connect." [] ;;;
       raise (ValueError "Could not obtain/create GitHub credentials connection.")
     else
       let data := connect_body org_name repo_name branch_name directory connection_id in
       g' <- read_globals ;;
       response <- requests_post (connect_url (FABRIC_API_URL g') workspace_id)
                     headers (Some data) ;;
       (if negb (status_code response =? 200) then
          logging ERROR "Git connect failed: %s - %s"
            [AInt (status_code response); AStr (text response)] ;;;
          raise_for_status response
        else ret tt) ;;;
       logging INFO "Workspace connected to GitHub branch" [])
    is_RequestException
    (fun e => logging ERROR "Error connecting branch to workspace: %s" [AExn e] ;;;
              raise e).

(** ** Git initialization helpers *)

(** One round of the [while keep_polling] loop per unit of [fuel]; the loop
    itself has no bound.  It hands back the last [operation_state]. *)
Fixpoint polling_loop (fuel : nat) (uri : option string) (retry_after : nat)
    (headers : list (string * string)) : M json :=
  match fuel with
  | O => diverge
  | S fuel' =>
      response <- match uri with
                  | Some u => requests_get u headers
                  | None => raise MissingSchema
                  end ;;
      operation_state <- response_json response ;;
      logging INFO "operation state = %s" [AVal operation_state] ;;;
      logged <- lift (py_index operation_state "status") ;;
      logging INFO "Long running operation status: %s" [AVal logged] ;;;
      status <- lift (py_index operation_state "status") ;;
      if in_strs status ["NotStarted"; "Running"] then
        time_sleep retry_after ;;;
        polling_loop fuel' uri retry_after headers
      else ret operation_state
  end.

Definition long_running_operation_polling (fuel : nat) (uri : option string)
    (retry_after : nat) (headers : list (string * string)) : M json :=
  try_except
    (logging INFO "Polling long running operation ID %s started with retry-after %s seconds."
       [AOpt uri; AInt (Z.of_nat retry_after)] ;;;
     operation_state <- polling_loop fuel uri retry_after headers ;;
     status <- lift (py_index operation_state "status") ;;
     if eq_str status "Failed" then
       error <- lift (py_get_default operation_state "Error" (JObj [])) ;;
       logging INFO "The long running operation failed. Error response: %s" [ADumps error] ;;;
       ret JNull
     else
       logging INFO "The long running operation has been successfully completed." [] ;;;
       lift (py_index operation_state "status"))
    is_Exception
    (fun e => logging ERROR "The long running operation failed with error: %s" [AExn e] ;;;
              ret JNull).

(** [response.headers.get(name)]: the names of headers compare without
    regard to case. *)
Fixpoint header_get (name : string) (headers : list (string * string)) : option string :=
  match headers with
  | [] => None
  | (k, v) :: rest =>
      if String.eqb (lower k) (lower name) then Some v else header_get name rest
  end.

Definition initialize_workspace_from_git (fuel : nat) (workspace_id token : json) : M unit :=
  try_except
    (g <- read_globals ;;
     logging INFO "Initializing workspace %s to Git branch %s ..."
       [AVal workspace_id; AOpt (GH_NEW_BRANCH g)] ;;;
     let headers := [("Authorization", "Bearer " ++ str token)] in
     let git_initialize_url :=
       FABRIC_API_URL g ++ "/workspaces/" ++ str workspace_id ++ "/git/initializeConnection" in
     response <- requests_post git_initialize_url headers None ;;
     if status_code response =? 200 then
       git_status <- response_json response ;;
       remote_commit_hash <- lift (py_get git_status "remoteCommitHash") ;;
       workspace_head <- lift (py_get git_status "workspaceHead") ;;
       let update_params :=
         JObj [("workspaceHead", workspace_head);
               ("remoteCommitHash", remote_commit_hash);
               ("options",
                JObj [("allowOverrideItems", JBool true);
                      ("conflictResolution", JStr "RemoteSync")])] in
       let update_url :=
         FABRIC_API_URL g ++ "/workspaces/" ++ str workspace_id ++ "/git/updateFromGit" in
       update_response <- requests_post update_url headers (Some update_params) ;;
       if status_code update_response =? 200 then
         g' <- read_globals ;;
         logging INFO "Feature workspace %s is synchronizing with branch %s"
           [AStr (WORKSPACE_NAME g'); AOpt (GH_NEW_BRANCH g')]
       else if status_code update_response =? 202 then
         logging INFO "Request accepted, update workspace is in progress..." [] ;;;
         let location_url := header_get "Location" (resp_headers update_response) in
         logging INFO "Polling URL to track operation status is %s" [AOpt location_url] ;;;
         time_sleep 15 ;;;
         long_running_operation_polling fuel location_url 15 headers ;;;
         ret tt
       else
         logging ERROR "Failed to update the workspace. Status Code: %s - %s"
           [AInt (status_code update_response); AStr (text update_response)]
     else if status_code response =? 202 then
       logging INFO "Request accepted, get initialize in progress. Retry after some time" []
     else
       logging INFO "Failed to Git initialize. Status Code: %s" [AInt (status_code response)])
    is_RequestException
    (fun e => logging ERROR "An error occurred during workspace initialization: %s" [AExn e]).

(** ** CLI argument binding *)

(** [parsed] is what [parser.parse_args()] does: it returns the namespace
    or raises; a missing required argument makes it raise [SystemExit]. *)
Definition set_main_parameters (parsed : exn + Args) : M unit :=
  args <- try_except (external parsed) is_Exception
            (fun e => logging ERROR "Error parsing parameters: %s" [AExn e] ;;;
                      raise (ValueError ("Could not extract parameters: " ++ str e))) ;;
  logging INFO "Binding parameters..." [] ;;;
  g <- read_globals ;;
  write_globals
    {| FABRIC_API_URL := FABRIC_API_URL g;
       GH_API_URL := if truthy_str (arg_GH_API_URL args)
                     then arg_GH_API_URL args else GH_API_URL g;
       CAPACITY_ID := arg_CAPACITY_ID args;
       WORKSPACE_NAME := arg_WORKSPACE_NAME args;
       DEVELOPER := arg_DEVELOPER args;
       GH_MAIN_BRANCH := arg_GH_MAIN_BRANCH args;
       GH_NEW_BRANCH := arg_GH_NEW_BRANCH args;
       GH_GIT_FOLDER := arg_GH_GIT_FOLDER args;
       GH_OWNER := arg_GH_OWNER args;
       GH_REPO_NAME := arg_GH_REPO_NAME args;
       CLIENT_ID := arg_CLIENT_ID args;
       CLIENT_SECRET := CLIENT_SECRET g;
       TENANT_ID := arg_TENANT_ID args;
       USERNAME := arg_USER_NAME args;
       PASSWORD := arg_PASSWORD args;
       FABRIC_TOKEN := arg_FABRIC_TOKEN args;
       GH_PAT_TOKEN := arg_GH_PAT_TOKEN args |}.

(** ** Main *)

Definition main (fuel : nat) (parsed : exn + Args) : M unit :=
  logging INFO "Starting branch-out main flow..." [] ;;;
  set_main_parameters parsed ;;;
  g <- read_globals ;;
  if negb (truthy_str (GH_PAT_TOKEN g))
  then raise (ValueError "GitHub PAT token was not provided. Set --GH_PAT_TOKEN.")
  else
    token <- (if truthy_str (FABRIC_TOKEN g) then
                logging INFO "Fabric token found, using provided token..." [] ;;;
                let token := FABRIC_TOKEN g in
                let token_preview :=
                  if (20 <? String.length token)%nat
                  then substring 0 20 token ++ "..." else token in
                logging INFO "Token preview (first 20 chars): %s" [AStr token_preview] ;;;
                logging INFO "Token length: %s" [AInt (Z.of_nat (String.length token))] ;;;
                ret (JStr token)
              else
                logging INFO "Generating Fabric token using service account credentials..." [] ;;;
                acquire_token_user_id_password
                  (TENANT_ID g) (CLIENT_ID g) (USERNAME g) (PASSWORD g)) ;;
    if negb (truthy token) then
      logging ERROR
        "Terminating branch out process due to Fabric credential error. Provide a valid token or use a service account without MFA." [] ;;;
      raise (ValueError "Could not generate authentication token. Please review the debug logs.")
    else
      logging INFO "Invoking new workspace routine..." [] ;;;
      workspace_id <- create_fabric_workspace (WORKSPACE_NAME g) (CAPACITY_ID g) token ;;
      if negb (truthy workspace_id) then
        logging ERROR
          "Terminating branch out process as target workspace could not be created. Check permissions or provide a valid Fabric token." [] ;;;
        raise (ValueError "Could not create Fabric workspace.")
      else
        logging INFO "Adding workspace admin %s..." [AStr (DEVELOPER g)] ;;;
        add_workspace_admins workspace_id (DEVELOPER g) token ;;;
        logging INFO "Creating GitHub branch %s from %s..."
          [AOpt (GH_NEW_BRANCH g); AStr (GH_MAIN_BRANCH g)] ;;;
        create_github_branch (GH_OWNER g) (GH_REPO_NAME g) (GH_MAIN_BRANCH g)
          (GH_NEW_BRANCH g) (GH_PAT_TOKEN g) ;;;
        logging INFO "Connecting workspace to GitHub branch %s..." [AOpt (GH_NEW_BRANCH g)] ;;;
        connect_branch_to_workspace workspace_id (GH_OWNER g) (GH_REPO_NAME g)
          (GH_NEW_BRANCH g) (GH_GIT_FOLDER g) token ;;;
        logging INFO "Initialize workspace from GitHub branch..." [] ;;;
        initialize_workspace_from_git fuel workspace_id token.

(** ** Vocabulary of the statements *)

(** [w] after one call through [requests]. *)
Definition called (rq : request) (w : World Remote) : World Remote :=
  {| globals := globals w; remote := snd (serve rq (remote w));
     events := events w ++ [Http rq]; log := log w |}.

(** [w] after one log record. *)
Definition logged (l : level) (format : string) (args : list log_arg) (w : World Remote) : World Remote :=
  {| globals := globals w; remote := remote w; events := events w;
     log := log w ++ [mk_log l format args] |}.

(** The reference lookup of [branch_exists]. *)
Definition lookup_request (g : Globals) (owner repo_name : string)
    (branch_name : option string) (token : string) : request :=
  mk_request GET (ref_url (GH_API_URL g) owner repo_name branch_name)
    (_github_headers token) None.

(** The call that creates a workspace. *)
Definition create_request (g : Globals) (workspace_name cpty_id : string) (token : json)
    : request :=
  mk_request POST (FABRIC_API_URL g ++ "/workspaces")
    [("Authorization", "Bearer " ++ str token)]
    (Some (JObj [("displayName", JStr workspace_name); ("capacityId", JStr cpty_id)])).

(** The call that lists the connections. *)
Definition list_request (g : Globals) (token : json) : request :=
  mk_request GET (FABRIC_API_URL g ++ "/connections") (_fabric_headers token) None.

(** The call that creates a connection. *)
Definition connection_request (g : Globals) (connection_name pat_token : string)
    (token : json) : request :=
  mk_request POST (FABRIC_API_URL g ++ "/connections") (_fabric_headers token)
    (Some (connection_body connection_name pat_token)).

(** A status that is neither a client error nor a server error, the ones
    [raise_for_status] raises for. *)
Definition accepted (r : response) : bool :=
  negb ((400 <=? status_code r) && (status_code r <? 600)).

(** A response that lists [items], as a bare collection or wrapped under
    the key "value". *)
Definition listing (r : response) (items : list json) : Prop :=
  accepted r = true /\
  (body r = Some (JArr items) \/
   exists members,
     body r = Some (JObj members) /\ dict_get "value" members = Some (JArr items)).

(** The git-connect call. *)
Definition connect_request (g : Globals) (workspace_id : json) (org_name repo_name : string)
    (branch_name : option string) (git_folder : string) (connection_id token : json)
    : request :=
  mk_request POST (connect_url (FABRIC_API_URL g) workspace_id) (_fabric_headers token)
    (Some (connect_body org_name repo_name branch_name (directory_name git_folder)
             connection_id)).

(** What [c.get(k)] yields on the members of a dict. *)
Definition field (members : list (string * json)) (k : string) : json :=
  match dict_get k members with Some x => x | None => JNull end.

(** A connection with the requested display name and an id that counts
    as true. *)
Definition usable (connection_name : string) (members : list (string * json)) : bool :=
  eq_str (field members "displayName") connection_name && truthy (field members "id").

(** The fetch of an operation state. *)
Definition status_request (uri : string) (headers : list (string * string)) : request :=
  mk_request GET uri headers None.

(** The replies of the services to [n] calls [rq] in a row. *)
Fixpoint replies (rq : request) (state : Remote) (n : nat) : list reply :=
  match n with
  | O => []
  | S n' => fst (serve rq state) :: replies rq (snd (serve rq state)) n'
  end.

(** [n] fetches with a sleep between consecutive ones. *)
Fixpoint polls (rq : request) (retry_after : nat) (n : nat) : list event :=
  match n with
  | O => []
  | S O => [Http rq]
  | S n' => Http rq :: Sleep retry_after :: polls rq retry_after n'
  end.

(** The number of calls through [requests] among the events. *)
Fixpoint fetches (es : list event) : nat :=
  match es with
  | [] => O
  | Http _ :: rest => S (fetches rest)
  | Sleep _ :: rest => fetches rest
  end.

(** A status that keeps the poller waiting. *)
Definition pending (status : json) : bool := in_strs status ["NotStarted"; "Running"].

(** The status a response carries, when its body is an operation state. *)
Definition status_of (r : response) : option json :=
  match body r with
  | Some (JObj members) => dict_get "status" members
  | _ => None
  end.

(** The identity provider yields no usable token. *)
Definition unobtainable (result : exn + list (string * json)) : Prop :=
  match result with
  | inl _ => True
  | inr members =>
      match dict_get "access_token" members with
      | Some v => truthy v = false
      | None => True
      end
  end.

(** A run without credentials: the command line does not parse (a missing
    required argument), the PAT is empty, or there is neither a Fabric
    token nor one to obtain. *)
Inductive no_credentials : exn + Args -> Prop :=
| no_arguments (e : exn) : no_credentials (inl e)
| no_pat (args : Args) :
    arg_GH_PAT_TOKEN args = "" -> no_credentials (inr args)
| no_token (args : Args) :
    arg_FABRIC_TOKEN args = "" ->
    unobtainable (identity (arg_TENANT_ID args) (arg_CLIENT_ID args)
                    (arg_USER_NAME args) (arg_PASSWORD args)) ->
    no_credentials (inr args).

(** The call that grants the developer admin rights on a workspace. *)
Definition admin_request (workspace_id : json) (developer : string) (token : json)
    : request :=
  mk_request POST
    ("https://api.powerbi.com/v1.0/myorg/admin/groups/" ++ str workspace_id ++ "/users")
    [("Authorization", "Bearer " ++ str token)]
    (Some (JObj [("emailAddress", JStr developer);
                 ("groupUserAccessRight", JStr "Admin")])).

(** The call that creates the reference of a branch at a commit. *)
Definition creation_request (g : Globals) (owner repo_name : string)
    (new_branch : option string) (base_sha : json) (token : string) : request :=
  mk_request POST (refs_url (GH_API_URL g) owner repo_name) (_github_headers token)
    (Some (JObj [("ref", JStr ("refs/heads/" ++ str new_branch)); ("sha", base_sha)])).

(** The call that initializes the git connection of a workspace. *)
Definition initialize_request (g : Globals) (workspace_id token : json) : request :=
  mk_request POST
    (FABRIC_API_URL g ++ "/workspaces/" ++ str workspace_id ++ "/git/initializeConnection")
    [("Authorization", "Bearer " ++ str token)] None.

(** The call that updates a workspace from git, given the members of the
    git status that the initialization returned. *)
Definition update_request (g : Globals) (workspace_id token : json)
    (git_status : list (string * json)) : request :=
  mk_request POST
    (FABRIC_API_URL g ++ "/workspaces/" ++ str workspace_id ++ "/git/updateFromGit")
    [("Authorization", "Bearer " ++ str token)]
    (Some (JObj [("workspaceHead", field git_status "workspaceHead");
                 ("remoteCommitHash", field git_status "remoteCommitHash");
                 ("options",
                  JObj [("allowOverrideItems", JBool true);
                        ("conflictResolution", JStr "RemoteSync")])])).

(** [n] rounds of the polling loop that each end in a sleep. *)
Fixpoint rounds (rq : request) (retry_after : nat) (n : nat) : list event :=
  match n with
  | O => []
  | S n' => Http rq :: Sleep retry_after :: rounds rq retry_after n'
  end.

(** A reply to the creation of a workspace that creates nothing and reports
    no conflict: a transport failure, or a status other than 201 and 409. *)
Definition creates_nothing (answer : reply) : Prop :=
  match answer with
  | Fails _ => True
  | Responds r => status_code r <> 201 /\ status_code r <> 409
  end.

(** A reply that [raise_for_status] does not let through: a transport
    failure, or a client or server error. *)
Definition refused (answer : reply) : Prop :=
  match answer with
  | Fails _ => True
  | Responds r => accepted r = false
  end.

(** [w'] is [w] after exactly the calls [calls], in this order, and any
    logging: the services have answered each of them in turn, and the
    globals are as they were. *)
Definition after (calls : list request) (w w' : World Remote) : Prop :=
  globals w' = globals w /\
  events w' = (events w ++ map Http calls)%list /\
  remote w' = fold_left (fun state rq => snd (serve rq state)) calls (remote w).

(** A reply to the lookup of a branch that does not report it: a transport
    failure or a status other than 200. *)
Definition absent (answer : reply) : Prop :=
  match answer with
  | Fails _ => True
  | Responds r => status_code r <> 200
  end.

(** What [response.raise_for_status()] and the transport make of a reply
    whose content does not matter. *)
Definition settled (answer : reply) : outcome unit :=
  match answer with
  | Fails detail => Raises (ConnectionError detail)
  | Responds r => if accepted r then Returns tt else Raises (HTTPError (status_code r))
  end.

(** A reply to the listing that offers no connection to reuse under the
    requested name: the listing fails (and counts as empty), or it holds
    connection objects none of which has both the name and an id. *)
Definition offers_none (connection_name : string) (answer : reply) : Prop :=
  refused answer \/
  exists (r : response) (entries : list (list (string * json))),
    answer = Responds r /\
    listing r (map JObj entries) /\
    forallb (fun m => negb (usable connection_name m)) entries = true.

(** A reply to the creation of a connection that creates nothing: a
    transport failure or a status other than 201. *)
Definition makes_nothing (answer : reply) : Prop :=
  match answer with
  | Fails _ => True
  | Responds r => status_code r <> 201
  end.

(** What the resolver makes of the reply to the creation of a connection. *)
Definition made (answer : reply) : outcome json :=
  match answer with
  | Fails _ => Returns JNull
  | Responds r =>
      if status_code r =? 201 then
        match body r with
        | Some (JObj members) => Returns (field members "id")
        | Some _ => Raises (AttributeError "get")
        | None => Returns JNull
        end
      else Returns JNull
  end.

(** The state of the services after [n] calls [rq] in a row. *)
Fixpoint advance (rq : request) (state : Remote) (n : nat) : Remote :=
  match n with
  | O => state
  | S n' => advance rq (snd (serve rq state)) n'
  end.

(** The exception a fetch of the operation state ends in when its reply
    cannot be read: a transport failure, a body that is not JSON, JSON that
    is not an object, an object without "status". *)
Definition breaks (answer : reply) : option exn :=
  match answer with
  | Fails detail => Some (ConnectionError detail)
  | Responds r =>
      match body r with
      | None => Some JSONDecodeError
      | Some (JObj members) =>
          match dict_get "status" members with
          | None => Some (KeyError "status")
          | Some _ => None
          end
      | Some _ => Some (TypeError "subscript")
      end
  end.

(** A reply other than a response with the given status: a transport
    failure, or a response with another status. *)
Definition other_than (status : Z) (answer : reply) : Prop :=
  match answer with
  | Fails _ => True
  | Responds r => status_code r <> status
  end.

(** The globals once [set_main_parameters] has bound the arguments. *)
Definition bound (args : Args) (g : Globals) : Globals :=
  {| FABRIC_API_URL := FABRIC_API_URL g;
     GH_API_URL := if truthy_str (arg_GH_API_URL args)
                   then arg_GH_API_URL args else GH_API_URL g;
     CAPACITY_ID := arg_CAPACITY_ID args;
     WORKSPACE_NAME := arg_WORKSPACE_NAME args;
     DEVELOPER := arg_DEVELOPER args;
     GH_MAIN_BRANCH := arg_GH_MAIN_BRANCH args;
     GH_NEW_BRANCH := arg_GH_NEW_BRANCH args;
     GH_GIT_FOLDER := arg_GH_GIT_FOLDER args;
     GH_OWNER := arg_GH_OWNER args;
     GH_REPO_NAME := arg_GH_REPO_NAME args;
     CLIENT_ID := arg_CLIENT_ID args;
     CLIENT_SECRET := CLIENT_SECRET g;
     TENANT_ID := arg_TENANT_ID args;
     USERNAME := arg_USER_NAME args;
     PASSWORD := arg_PASSWORD args;
     FABRIC_TOKEN := arg_FABRIC_TOKEN args;
     GH_PAT_TOKEN := arg_GH_PAT_TOKEN args |}.

(** The bearer token of a run: the Fabric token of the command line when
    there is one, otherwise an access token of the identity library that
    counts as true. *)
Definition session_token (args : Args) (token : json) : Prop :=
  (arg_FABRIC_TOKEN args <> "" /\ token = JStr (arg_FABRIC_TOKEN args)) \/
  (arg_FABRIC_TOKEN args = "" /\
   exists members,
     identity (arg_TENANT_ID args) (arg_CLIENT_ID args) (arg_USER_NAME args)
       (arg_PASSWORD args) = inr members /\
     dict_get "access_token" members = Some token /\
     truthy token = true).

(** The steps of [main] once the workspace is there: the admin grant, the
    branch, the connection and the initialization, with the globals [g] it
    has read. *)
Definition configure (fuel : nat) (g : Globals) (token workspace_id : json) : M unit :=
  logging INFO "Adding workspace admin %s..." [AStr (DEVELOPER g)] ;;;
  add_workspace_admins workspace_id (DEVELOPER g) token ;;;
  logging INFO "Creating GitHub branch %s from %s..."
    [AOpt (GH_NEW_BRANCH g); AStr (GH_MAIN_BRANCH g)] ;;;
  create_github_branch (GH_OWNER g) (GH_REPO_NAME g) (GH_MAIN_BRANCH g)
    (GH_NEW_BRANCH g) (GH_PAT_TOKEN g) ;;;
  logging INFO "Connecting workspace to GitHub branch %s..." [AOpt (GH_NEW_BRANCH g)] ;;;
  connect_branch_to_workspace workspace_id (GH_OWNER g) (GH_REPO_NAME g)
    (GH_NEW_BRANCH g) (GH_GIT_FOLDER g) token ;;;
  logging INFO "Initialize workspace from GitHub branch..." [] ;;;
  initialize_workspace_from_git fuel workspace_id token.

(** The provisioning steps of [main], from "Invoking new workspace
    routine..." to its end. *)
Definition provision (fuel : nat) (g : Globals) (token : json) : M unit :=
  logging INFO "Invoking new workspace routine..." [] ;;;
  workspace_id <- create_fabric_workspace (WORKSPACE_NAME g) (CAPACITY_ID g) token ;;
  if negb (truthy workspace_id) then
    logging ERROR
      "Terminating branch out process as target workspace could not be created. Check permissions or provide a valid Fabric token." [] ;;;
    raise (ValueError "Could not create Fabric workspace.")
  else configure fuel g token workspace_id.

(** What [create_fabric_workspace] makes of the reply to the creation. *)
Definition created (answer : reply) : outcome json :=
  match answer with
  | Fails _ => Returns JNull
  | Responds r =>
      if status_code r =? 409 then
        Raises (ValueError
                  "Fabric workspace already exists. Please specify a new workspace as target.")
      else if status_code r =? 201 then
        match body r with
        | Some (JObj members) => Returns (field members "id")
        | Some _ => Raises (AttributeError "get")
        | None => Returns JNull
        end
      else Returns JNull
  end.

(** ** Steps of the monad *)

Lemma send_run (rq : request) (w : World Remote) :
  send rq w =
    (match fst (serve rq (remote w)) with
     | Responds r => Returns r
     | Fails detail => Raises (ConnectionError detail)
     end,
     called rq w).
Proof.
  unfold send, called.
  destruct (serve rq (remote w)) as [[r|detail] remote']; reflexivity.
Qed.

(** ** Folder normalization *)

Lemma rstrip_decompose (c : ascii) (s : string) :
  exists k, s = rstrip c s ++ replicate k c.
Proof.
  induction s as [|a rest [k IH]]; simpl.
  - exists 0%nat. reflexivity.
  - destruct (rstrip c rest) as [|b stripped] eqn:E.
    + destruct (Ascii.eqb_spec a c) as [->|_].
      * exists (S k). simpl. simpl in IH. congruence.
      * exists k. simpl. simpl in IH. congruence.
    + exists k. simpl. rewrite IH at 1. reflexivity.
Qed.

Lemma rstrip_no_trailing (c : ascii) (s : string) :
  ends_with c (rstrip c s) = false.
Proof.
  induction s as [|a rest IH]; simpl; [reflexivity|].
  destruct (rstrip c rest) as [|b stripped] eqn:E.
  - destruct (Ascii.eqb_spec a c) as [->|Hne]; simpl; [reflexivity|].
    destruct (Ascii.eqb_spec a c); [contradiction|reflexivity].
  - simpl. simpl in IH. exact IH.
Qed.

(** C5.  The folder normalization of [connect_branch_to_workspace] sends
    each of "/", "\" and the empty string to the empty directory
    designator; every other folder is sent to itself without its trailing
    slashes: the folder is the result followed by slashes only, and the
    result does not end in a slash.  In particular "a/b/" becomes "a/b". *)
Theorem directory_name_normalizes (git_folder : string) :
  (In git_folder ["/"; "\"; ""] -> directory_name git_folder = "") /\
  (~ In git_folder ["/"; "\"; ""] ->
   (exists k, git_folder = directory_name git_folder ++ replicate k "/"%char) /\
   ends_with "/"%char (directory_name git_folder) = false) /\
  directory_name "a/b/" = "a/b".
Proof.
  split; [|split].
  - intros [<-|[<-|[<-|[]]]]; reflexivity.
  - intros Hroot. unfold directory_name.
    assert (Hempty : truthy_str git_folder = true).
    { unfold truthy_str. destruct (String.eqb_spec git_folder ""); [|reflexivity].
      exfalso. apply Hroot. subst. simpl. tauto. }
    assert (Hmark : existsb (String.eqb git_folder) ["/"; "\"] = false).
    { simpl. destruct (String.eqb_spec git_folder "/") as [->|_].
      - exfalso. apply Hroot. simpl. tauto.
      - destruct (String.eqb_spec git_folder "\") as [->|_]; [|reflexivity].
        exfalso. apply Hroot. simpl. tauto. }
    rewrite Hempty, Hmark. simpl. split.
    + apply rstrip_decompose.
    + apply rstrip_no_trailing.
  - reflexivity.
Qed.

(** ** Branch existence *)

(** C8.  [branch_exists] never raises: whatever the lookup does, it returns
    a boolean after exactly that one call.  The boolean is [false] on every
    transport failure of the lookup, and it is [true] exactly when the
    lookup responds with status 200. *)
Theorem branch_exists_total (owner repo_name : string) (branch_name : option string)
    (token : string) (w : World Remote) :
  let rq := lookup_request (globals w) owner repo_name branch_name token in
  exists b : bool,
    branch_exists owner repo_name branch_name token w = (Returns b, called rq w) /\
    (forall detail, fst (serve rq (remote w)) = Fails detail -> b = false) /\
    (b = true <->
     exists r, fst (serve rq (remote w)) = Responds r /\ status_code r = 200).
Proof.
  intros rq. subst rq.
  unfold branch_exists, lookup_request, called, try_except, bind, read_globals,
    requests_get, send.
  destruct (serve _ (remote w)) as [[r|detail] remote'] eqn:E; simpl.
  - exists (status_code r =? 200). split; [reflexivity|]. split.
    + discriminate.
    + rewrite Z.eqb_eq. split.
      * intros H. exists r. auto.
      * intros [r' [Hr H]]. congruence.
  - exists false. split; [reflexivity|]. split.
    + reflexivity.
    + split; [discriminate|]. intros [r [Hr _]]. discriminate.
Qed.

(** ** Workspace creation *)

(** C3.  When the services answer the creation of a workspace with status
    409, the name conflict, [create_fabric_workspace] raises the "already
    exists" [ValueError]: it returns no identifier, and the creation call is
    the only call it makes.  The world is arbitrary, so this is also what a
    second attempt meets once the first has created the workspace. *)
Theorem create_fabric_workspace_conflict (workspace_name cpty_id : string) (token : json)
    (w : World Remote) (r : response) :
  let rq := create_request (globals w) workspace_name cpty_id token in
  fst (serve rq (remote w)) = Responds r ->
  status_code r = 409 ->
  exists w',
    create_fabric_workspace workspace_name cpty_id token w =
      (Raises (ValueError
                 "Fabric workspace already exists. Please specify a new workspace as target."),
       w') /\
    events w' = (events w ++ [Http rq])%list /\
    remote w' = snd (serve rq (remote w)).
Proof.
  intros rq Hreply Hstatus. subst rq.
  unfold create_fabric_workspace, create_request, try_except, bind, read_globals,
    logging, requests_post, send in *.
  cbn [globals remote events log].
  destruct (serve _ (remote w)) as [answer remote'] eqn:E.
  cbn [fst snd] in *. subst answer.
  cbn [globals remote events log]. rewrite Hstatus.
  cbn. eexists. split; [reflexivity|]. cbn. split; reflexivity.
Qed.

(** ** Branch creation *)

(** C4, as amended.  With a PAT that is not empty, when the lookup of the
    new branch is answered with status 200 (the branch exists),
    [create_github_branch] returns normally and the lookup is the only call
    it makes: no reference is created.  The world is arbitrary, so this is
    also what a second invocation meets once the first has created the
    branch. *)
Theorem create_github_branch_skips_existing (owner repo_name main_branch : string)
    (new_branch : option string) (token : string) (w : World Remote) (r : response) :
  let rq := lookup_request (globals w) owner repo_name new_branch token in
  token <> "" ->
  fst (serve rq (remote w)) = Responds r ->
  status_code r = 200 ->
  exists w',
    create_github_branch owner repo_name main_branch new_branch token w = (Returns tt, w') /\
    events w' = (events w ++ [Http rq])%list /\
    remote w' = snd (serve rq (remote w)).
Proof.
  intros rq Htoken Hreply Hstatus. subst rq.
  unfold create_github_branch.
  replace (truthy_str token) with true
    by (unfold truthy_str; destruct (String.eqb_spec token ""); [contradiction|reflexivity]).
  cbn [negb].
  unfold lookup_request, branch_exists, try_except, bind, read_globals, logging,
    requests_get, send, ret in *.
  destruct (serve _ (remote w)) as [answer remote'] eqn:E.
  cbn [fst snd] in *. subst answer. rewrite Hstatus.
  cbn. eexists. split; [reflexivity|]. cbn. split; reflexivity.
Qed.

(** ** Connections *)

Lemma list_connections_listing (token : json) (w : World Remote) (r : response)
    (items : list json) :
  let rq := list_request (globals w) token in
  fst (serve rq (remote w)) = Responds r ->
  listing r items ->
  list_connections token w = (Returns (JArr items), called rq w).
Proof.
  intros rq Hreply [Hok Hbody]. subst rq.
  unfold list_connections, list_request, called, try_except, bind, read_globals,
    requests_get, send, raise_for_status, response_json, accepted in *.
  destruct (serve _ (remote w)) as [answer remote'] eqn:E.
  cbn [fst snd] in *. subst answer.
  apply negb_true_iff in Hok. rewrite Hok.
  destruct Hbody as [Hbare | [members [Hwrapped Hvalue]]].
  - rewrite Hbare. reflexivity.
  - rewrite Hwrapped. unfold ret, dict_has, lift, py_index. cbn.
    rewrite Hvalue. reflexivity.
Qed.

(** C7.  [list_connections] accepts both shapes of the body: for every list
    of connections, a response whose body is the bare list and a response
    whose body wraps the list under the key "value" both yield that list. *)
Theorem list_connections_shapes (token : json) (w_bare w_wrapped : World Remote)
    (r_bare r_wrapped : response) (items : list json) (members : list (string * json)) :
  fst (serve (list_request (globals w_bare) token) (remote w_bare)) = Responds r_bare ->
  fst (serve (list_request (globals w_wrapped) token) (remote w_wrapped))
    = Responds r_wrapped ->
  accepted r_bare = true ->
  accepted r_wrapped = true ->
  body r_bare = Some (JArr items) ->
  body r_wrapped = Some (JObj members) ->
  dict_get "value" members = Some (JArr items) ->
  fst (list_connections token w_bare) = Returns (JArr items) /\
  fst (list_connections token w_wrapped) = Returns (JArr items).
Proof.
  intros Hbare Hwrapped Hok_bare Hok_wrapped Hbody_bare Hbody_wrapped Hvalue.
  split.
  - rewrite (list_connections_listing token w_bare r_bare items Hbare); [reflexivity|].
    split; [assumption|]. left. assumption.
  - rewrite (list_connections_listing token w_wrapped r_wrapped items Hwrapped);
      [reflexivity|].
    split; [assumption|]. right. exists members. split; assumption.
Qed.

Lemma find_connection_first_usable (connection_name : string)
    (before : list (list (string * json))) (m : list (string * json))
    (after : list json) (w : World Remote) :
  forallb (fun b => negb (usable connection_name b)) before = true ->
  usable connection_name m = true ->
  find_connection connection_name (map JObj before ++ JObj m :: after)%list w =
    (Returns (Some (field m "id")),
     logged INFO "Found existing GitHub connection '%s' with ID: %s"
       [AStr connection_name; AVal (field m "id")] w).
Proof.
  intros Hbefore Husable.
  induction before as [|b before IH]; cbn [map app find_connection].
  - unfold usable in Husable. apply andb_true_iff in Husable as [Hname Hid].
    unfold bind, lift, py_get, field in *. rewrite Hname, Hid. reflexivity.
  - cbn [forallb] in Hbefore. apply andb_true_iff in Hbefore as [Hb Hrest].
    apply negb_true_iff in Hb. unfold usable in Hb.
    unfold bind, lift, py_get, field in *.
    destruct (eq_str _ connection_name) eqn:Hname at 1.
    + rewrite Hname in Hb. cbn [andb] in Hb. rewrite Hb. apply IH. exact Hrest.
    + apply IH. exact Hrest.
Qed.

Lemma resolver_reuses (connection_name pat_token : string)
    (token : json) (w : World Remote) (r : response)
    (before : list (list (string * json))) (m : list (string * json))
    (after : list json) :
  let rq := list_request (globals w) token in
  pat_token <> "" ->
  fst (serve rq (remote w)) = Responds r ->
  listing r (map JObj before ++ JObj m :: after)%list ->
  forallb (fun b => negb (usable connection_name b)) before = true ->
  usable connection_name m = true ->
  get_or_create_github_pat_connection connection_name pat_token token w =
    (Returns (field m "id"),
     logged INFO "Found existing GitHub connection '%s' with ID: %s"
       [AStr connection_name; AVal (field m "id")] (called rq w)).
Proof.
  intros rq Hpat Hreply Hlisting Hbefore Husable.
  unfold get_or_create_github_pat_connection.
  replace (truthy_str pat_token) with true
    by (unfold truthy_str; destruct (String.eqb_spec pat_token ""); [contradiction|reflexivity]).
  cbn [negb]. unfold bind at 1.
  rewrite (list_connections_listing token w r _ Hreply Hlisting).
  unfold bind at 1. unfold lift at 1. cbn [py_iter].
  unfold bind at 1.
  rewrite (find_connection_first_usable connection_name before m after _ Hbefore Husable).
  reflexivity.
Qed.

(** C6, as amended.  With a PAT that is not empty, when the listing holds
    connection objects of which at least one has the requested display name
    and an id that is not empty, [get_or_create_github_pat_connection]
    returns the id of the first such connection, and the listing is the only
    call it makes: nothing is created.  The world is arbitrary, so a second
    call that is given the same listing returns the same id. *)
Theorem get_or_create_reuses_first_usable (connection_name pat_token : string)
    (token : json) (w : World Remote) (r : response)
    (before : list (list (string * json))) (m : list (string * json))
    (after : list json) :
  let rq := list_request (globals w) token in
  pat_token <> "" ->
  fst (serve rq (remote w)) = Responds r ->
  listing r (map JObj before ++ JObj m :: after)%list ->
  forallb (fun b => negb (usable connection_name b)) before = true ->
  usable connection_name m = true ->
  exists w',
    get_or_create_github_pat_connection connection_name pat_token token w =
      (Returns (field m "id"), w') /\
    events w' = (events w ++ [Http rq])%list /\
    remote w' = snd (serve rq (remote w)).
Proof.
  intros rq Hpat Hreply Hlisting Hbefore Husable.
  eexists. split.
  - apply (resolver_reuses connection_name pat_token token w r before m after
             Hpat Hreply Hlisting Hbefore Husable).
  - split; reflexivity.
Qed.

(** ** Connecting the workspace *)

(** C2, as the code has it.  With a connection to reuse, what decides the
    outcome of [connect_branch_to_workspace] is [raise_for_status] alone: it
    raises when the connect reply is a client or server error and returns
    normally on every other status, 200 or not.  A reply such as 202 or 304
    is logged as a failed connect and the run goes on. *)
Theorem connect_outcome_follows_raise_for_status (workspace_id : json)
    (org_name repo_name : string) (branch_name : option string) (git_folder : string)
    (token : json) (w : World Remote) (listed : response)
    (before : list (list (string * json))) (m : list (string * json))
    (after : list json) (r : response) :
  let connection_name := "GitHub PAT - " ++ org_name ++ "/" ++ repo_name in
  let list_rq := list_request (globals w) token in
  let rq := connect_request (globals w) workspace_id org_name repo_name branch_name
              git_folder (field m "id") token in
  GH_PAT_TOKEN (globals w) <> "" ->
  fst (serve list_rq (remote w)) = Responds listed ->
  listing listed (map JObj before ++ JObj m :: after)%list ->
  forallb (fun b => negb (usable connection_name b)) before = true ->
  usable connection_name m = true ->
  fst (serve rq (snd (serve list_rq (remote w)))) = Responds r ->
  exists w',
    connect_branch_to_workspace workspace_id org_name repo_name branch_name git_folder
      token w =
      (if accepted r then Returns tt else Raises (HTTPError (status_code r)), w') /\
    events w' = (events w ++ [Http list_rq; Http rq])%list.
Proof using Type.
  clear identity render_exn.
  intros connection_name list_rq rq Hpat Hlisted Hlisting Hbefore Husable Hreply.
  unfold connect_branch_to_workspace, try_except.
  unfold bind at 1. unfold logging at 1.
  unfold bind at 1. unfold read_globals at 1. cbn [globals].
  unfold bind at 1. subst connection_name.
  match goal with
  | |- context [get_or_create_github_pat_connection ?name ?pat _ ?w1] =>
      rewrite (resolver_reuses name pat token w1 listed
                 before m after Hpat Hlisted Hlisting Hbefore Husable)
  end.
  assert (Hid : truthy (field m "id") = true).
  { unfold usable in Husable. apply andb_true_iff in Husable. tauto. }
  rewrite Hid. cbn [negb].
  unfold bind at 1. unfold read_globals at 1. cbn [globals logged called].
  unfold bind at 1. unfold requests_post.
  change (mk_request POST _ _ _) with rq.
  rewrite send_run.
  match goal with
  | |- context [fst (serve rq ?st)] =>
      change (fst (serve rq st)) with (fst (serve rq (snd (serve list_rq (remote w)))))
  end.
  rewrite Hreply.
  unfold raise_for_status, accepted.
  destruct ((400 <=? status_code r) && (status_code r <? 600)) eqn:Herror; cbn [negb].
  - assert (Hnot200 : (status_code r =? 200) = false).
    { apply andb_true_iff in Herror as [Hlow _]. apply Z.leb_le in Hlow.
      apply Z.eqb_neq. lia. }
    rewrite Hnot200. cbn [negb]. unfold bind, logging, raise. cbn [is_RequestException].
    eexists. split; [reflexivity|]. unfold called, logged. cbn [events].
    rewrite <- app_assoc. reflexivity.
  - destruct (negb (status_code r =? 200)); unfold bind, logging, ret;
      (eexists; split; [reflexivity|]); unfold called, logged; cbn [events];
      rewrite <- app_assoc; reflexivity.
Qed.

(** ** Polling *)

Lemma fetches_polls (rq : request) (retry_after n : nat) :
  fetches (polls rq retry_after n) = n.
Proof.
  induction n as [|n IH]; [reflexivity|].
  destruct n as [|n]; [reflexivity|].
  change (polls rq retry_after (S (S n)))
    with (Http rq :: Sleep retry_after :: polls rq retry_after (S n)).
  cbn [fetches]. rewrite IH. reflexivity.
Qed.

Section Polling.

Variables (uri : string) (retry_after : nat) (headers : list (string * string)).
Variables (final : response) (state : list (string * json)) (status : json).
Hypothesis final_state : body final = Some (JObj state).
Hypothesis final_status : dict_get "status" state = Some status.
Hypothesis final_terminal : pending status = false.

Let rq := status_request uri headers.

(** The loop fetches until the first status that is not pending and hands
    back the operation state that carries it. *)
Lemma polling_loop_run (waiting : list response) :
  forall (w : World Remote) (fuel : nat),
    replies rq (remote w) (S (length waiting)) = map Responds (waiting ++ [final]) ->
    Forall (fun r => exists st, status_of r = Some st /\ pending st = true) waiting ->
    (length waiting < fuel)%nat ->
    exists w',
      polling_loop fuel (Some uri) retry_after headers w = (Returns (JObj state), w') /\
      events w' = (events w ++ polls rq retry_after (S (length waiting)))%list.
Proof.
  induction waiting as [|r waiting IH]; intros w fuel Hreplies Hwaiting Hfuel;
    (destruct fuel as [|fuel]; [lia|]).
  - cbn in Hreplies. injection Hreplies as Hreply.
    cbn [polling_loop]. unfold bind at 1. unfold requests_get.
    change (mk_request GET uri headers None) with rq.
    rewrite send_run, Hreply.
    unfold bind at 1. unfold response_json at 1. rewrite final_state. unfold ret at 1.
    unfold bind at 1. unfold logging at 1.
    unfold bind at 1. unfold lift at 1. unfold py_index at 1. rewrite final_status.
    unfold bind at 1. unfold logging at 1.
    unfold bind at 1. unfold lift at 1. unfold py_index at 1. rewrite final_status.
    unfold pending in final_terminal. rewrite final_terminal. unfold ret.
    eexists. split; reflexivity.
  - cbn [length map app] in Hreplies.
    change (replies rq (remote w) (S (S (length waiting))))
      with (fst (serve rq (remote w))
            :: replies rq (snd (serve rq (remote w))) (S (length waiting))) in Hreplies.
    injection Hreplies as Hreply Hrest.
    inversion Hwaiting as [|? ? [st [Hst Hpending]] Hwaiting']; subst.
    unfold status_of in Hst.
    destruct (body r) as [[| | | | |members]|] eqn:Hbody; try discriminate.
    cbn [polling_loop]. unfold bind at 1. unfold requests_get.
    change (mk_request GET uri headers None) with rq.
    rewrite send_run, Hreply.
    unfold bind at 1. unfold response_json at 1. rewrite Hbody. unfold ret at 1.
    unfold bind at 1. unfold logging at 1.
    unfold bind at 1. unfold lift at 1. unfold py_index at 1. rewrite Hst.
    unfold bind at 1. unfold logging at 1.
    unfold bind at 1. unfold lift at 1. unfold py_index at 1. rewrite Hst.
    unfold pending in Hpending. rewrite Hpending.
    unfold bind at 1. unfold time_sleep, emit.
    match goal with
    | |- exists w', polling_loop _ _ _ _ ?w1 = _ /\ _ =>
        destruct (IH w1 fuel) as [w' [Hrun Hevents]];
          [exact Hrest | exact Hwaiting' | cbn [length] in Hfuel; lia |]
    end.
    exists w'. split; [exact Hrun|].
    rewrite Hevents. cbn [events length called].
    change (polls rq retry_after (S (S (length waiting))))
      with (Http rq :: Sleep retry_after :: polls rq retry_after (S (length waiting))).
    rewrite <- !app_assoc. reflexivity.
Qed.

End Polling.

(** The poller on a script: the operation state it stops at, the calls it
    made, and the record it logged last. *)
Lemma polling_run (uri : string) (retry_after : nat) (headers : list (string * string))
    (w : World Remote) (waiting : list response) (final : response)
    (state : list (string * json)) (status : json) (fuel : nat) :
  let rq := status_request uri headers in
  replies rq (remote w) (S (length waiting)) = map Responds (waiting ++ [final]) ->
  Forall (fun r => exists st, status_of r = Some st /\ pending st = true) waiting ->
  body final = Some (JObj state) ->
  dict_get "status" state = Some status ->
  pending status = false ->
  (S (length waiting) <= fuel)%nat ->
  exists (w' : World Remote) (earlier : list log_record),
    long_running_operation_polling fuel (Some uri) retry_after headers w =
      (Returns (if eq_str status "Failed" then JNull else status), w') /\
    events w' = (events w ++ polls rq retry_after (S (length waiting)))%list /\
    log w' =
      (earlier ++
       [if eq_str status "Failed"
        then mk_log INFO "The long running operation failed. Error response: %s"
               [ADumps (match dict_get "Error" state with
                        | Some e => e
                        | None => JObj []
                        end)]
        else mk_log INFO "The long running operation has been successfully completed."
               []])%list.
Proof.
  intros rq Hreplies Hwaiting Hstate Hstatus Hterminal Hfuel.
  unfold long_running_operation_polling, try_except.
  unfold bind at 1. unfold logging at 1. unfold bind at 1.
  match goal with
  | |- context [polling_loop _ _ _ _ ?w1] =>
      destruct (polling_loop_run uri retry_after headers final state status
                  Hstate Hstatus Hterminal waiting w1 fuel)
        as [w' [Hrun Hevents]]; [exact Hreplies | exact Hwaiting | lia |]
  end.
  rewrite Hrun.
  unfold bind at 1. unfold lift at 1. unfold py_index at 1. rewrite Hstatus.
  destruct (eq_str status "Failed") eqn:Hfailed.
  - unfold bind, lift, py_get_default, logging, ret.
    eexists. eexists. split; [reflexivity|]. split; [exact Hevents|]. reflexivity.
  - unfold bind, lift, py_index, logging. rewrite Hstatus.
    eexists. eexists. split; [reflexivity|]. split; [exact Hevents|]. reflexivity.
Qed.

(** C1.  For every script of operation states whose first status outside
    NotStarted and Running comes at position [n], the poller, given at least
    [n] rounds, makes exactly [n] fetches of the status URL, sleeps the
    retry interval between consecutive fetches, and stops there: it returns
    that status, or, when the status is Failed, logs the error payload of
    the operation state and returns without raising. *)
Theorem polling_stops_at_first_terminal (uri : string) (retry_after : nat)
    (headers : list (string * string)) (w : World Remote) (waiting : list response)
    (final : response) (state : list (string * json)) (status : json) (fuel : nat) :
  let rq := status_request uri headers in
  let n := S (length waiting) in
  replies rq (remote w) n = map Responds (waiting ++ [final]) ->
  Forall (fun r => exists st, status_of r = Some st /\ pending st = true) waiting ->
  body final = Some (JObj state) ->
  dict_get "status" state = Some status ->
  pending status = false ->
  (n <= fuel)%nat ->
  exists (w' : World Remote) (earlier : list log_record),
    long_running_operation_polling fuel (Some uri) retry_after headers w =
      (Returns (if eq_str status "Failed" then JNull else status), w') /\
    events w' = (events w ++ polls rq retry_after n)%list /\
    fetches (polls rq retry_after n) = n /\
    log w' =
      (earlier ++
       [if eq_str status "Failed"
        then mk_log INFO "The long running operation failed. Error response: %s"
               [ADumps (match dict_get "Error" state with
                        | Some e => e
                        | None => JObj []
                        end)]
        else mk_log INFO "The long running operation has been successfully completed."
               []])%list.
Proof.
  intros rq n Hreplies Hwaiting Hstate Hstatus Hterminal Hfuel.
  destruct (polling_run uri retry_after headers w waiting final state status fuel
              Hreplies Hwaiting Hstate Hstatus Hterminal Hfuel)
    as [w' [earlier [Hrun [Hevents Hlog]]]].
  exists w', earlier. split; [exact Hrun|]. split; [exact Hevents|].
  split; [apply fetches_polls | exact Hlog].
Qed.

(** C10.  When the first status outside NotStarted and Running that the
    poller observes is Failed, it returns [None]; the status itself is
    returned only when it is not Failed. *)
Theorem polling_returns_none_on_failed (uri : string) (retry_after : nat)
    (headers : list (string * string)) (w : World Remote) (waiting : list response)
    (final : response) (state : list (string * json)) (status : json) (fuel : nat) :
  let rq := status_request uri headers in
  replies rq (remote w) (S (length waiting)) = map Responds (waiting ++ [final]) ->
  Forall (fun r => exists st, status_of r = Some st /\ pending st = true) waiting ->
  body final = Some (JObj state) ->
  dict_get "status" state = Some status ->
  pending status = false ->
  (S (length waiting) <= fuel)%nat ->
  exists v : json,
    fst (long_running_operation_polling fuel (Some uri) retry_after headers w) = Returns v /\
    (eq_str status "Failed" = true -> v = JNull) /\
    (eq_str status "Failed" = false -> v = status) /\
    (v <> JNull -> eq_str status "Failed" = false /\ v = status).
Proof.
  intros rq Hreplies Hwaiting Hstate Hstatus Hterminal Hfuel.
  destruct (polling_run uri retry_after headers w waiting final state status fuel
              Hreplies Hwaiting Hstate Hstatus Hterminal Hfuel)
    as [w' [earlier [Hrun _]]].
  rewrite Hrun. cbn [fst].
  destruct (eq_str status "Failed").
  - exists JNull. repeat split; try discriminate; congruence.
  - exists status. repeat split; try discriminate; congruence.
Qed.

(** ** Main *)

(** C9.  In every run without credentials (the PAT is missing or empty, or
    there is no Fabric token and none can be obtained) [main] raises, and it
    has made no call through [requests] by then: no workspace creation, admin
    grant, branch creation, connect or git-initialize is issued. *)
Theorem main_aborts_without_credentials (fuel : nat) (parsed : exn + Args) (w : World Remote) :
  no_credentials parsed ->
  exists (e : exn) (w' : World Remote),
    main fuel parsed w = (Raises e, w') /\
    events w' = events w /\
    remote w' = remote w.
Proof.
  intros Hno. unfold main, set_main_parameters.
  unfold bind at 1. unfold logging at 1.
  unfold bind at 1. unfold bind at 1. unfold try_except, external.
  destruct Hno as [e | args Hpat | args Hfabric Hidentity].
  - destruct (is_Exception e); unfold bind, logging, raise;
      eexists; eexists; (split; [reflexivity|]); split; reflexivity.
  - unfold bind at 1. unfold logging at 1.
    unfold bind at 1. unfold read_globals at 1. unfold write_globals.
    unfold bind at 1. unfold read_globals at 1.
    cbn [globals GH_PAT_TOKEN]. rewrite Hpat. cbn [truthy_str String.eqb negb].
    unfold raise. eexists. eexists. split; [reflexivity|]. split; reflexivity.
  - unfold bind at 1. unfold logging at 1.
    unfold bind at 1. unfold read_globals at 1. unfold write_globals.
    unfold bind at 1. unfold read_globals at 1.
    cbn [globals GH_PAT_TOKEN FABRIC_TOKEN TENANT_ID CLIENT_ID USERNAME PASSWORD].
    destruct (negb (truthy_str (arg_GH_PAT_TOKEN args))).
    + unfold raise. eexists. eexists. split; [reflexivity|]. split; reflexivity.
    + rewrite Hfabric. cbn [truthy_str String.eqb negb].
      unfold bind at 1. unfold bind at 1. unfold logging at 1.
      unfold acquire_token_user_id_password.
      unfold bind at 1. unfold external at 1. unfold unobtainable in Hidentity.
      destruct (identity _ _ _ _) as [e | members].
      * eexists. eexists. split; [reflexivity|]. split; reflexivity.
      * unfold dict_has. unfold lift, py_index.
        destruct (dict_get "access_token" members) as [v|].
        -- rewrite Hidentity. cbn [negb]. unfold bind, logging, raise.
           eexists. eexists. split; [reflexivity|]. split; reflexivity.
        -- unfold bind, logging, ret, raise. cbn [truthy negb].
           eexists. eexists. split; [reflexivity|]. split; reflexivity.
Qed.

(** * Further properties of the script *)

(** ** Composition of calls *)

Lemma after_nil (w w' : World Remote) :
  globals w' = globals w -> events w' = events w -> remote w' = remote w ->
  after [] w w'.
Proof.
  intros Hg He Hr. unfold after. cbn. rewrite app_nil_r. auto.
Qed.

Lemma after_trans (calls calls' : list request) (w w1 w2 : World Remote) :
  after calls w w1 -> after calls' w1 w2 -> after (calls ++ calls') w w2.
Proof.
  intros (Hg & He & Hr) (Hg' & He' & Hr'). unfold after.
  rewrite Hg', Hg, He', He, Hr', Hr, map_app, fold_left_app, app_assoc. auto.
Qed.

Lemma after_logged (calls : list request) (w w' : World Remote) (l : level)
    (format : string) (args : list log_arg) :
  after calls w w' -> after calls w (logged l format args w').
Proof. intros H. exact H. Qed.

Lemma after_call (rq : request) (w : World Remote) : after [rq] w (called rq w).
Proof. unfold after, called. cbn. auto. Qed.

(** Closes a goal [after calls w w'] when [w'] is [w] under explicit calls
    and log records. *)
Ltac solve_after :=
  unfold after, called, logged;
  cbn [globals events remote map fold_left fst snd];
  rewrite <- ?app_assoc;
  repeat split; reflexivity.

(** ** The admin grant is best effort *)

Lemma add_workspace_admins_run (workspace_id : json) (developer : string)
    (token : json) (w : World Remote) :
  let rq := admin_request workspace_id developer token in
  exists w',
    add_workspace_admins workspace_id developer token w = (Returns tt, w') /\
    after [rq] w w'.
Proof.
  intros rq. unfold add_workspace_admins, try_except.
  unfold bind at 1. unfold logging at 1.
  unfold bind at 1. unfold requests_post.
  change (mk_request POST _ _ _) with rq.
  rewrite send_run.
  destruct (fst (serve rq _)) as [r|detail] eqn:Hreply.
  - unfold bind at 1. unfold raise_for_status.
    destruct ((400 <=? status_code r) && (status_code r <? 600));
      unfold raise, ret, logging; cbn [is_RequestException];
      eexists; (split; [reflexivity|]); solve_after.
  - cbn [is_RequestException]. unfold logging.
    eexists. split; [reflexivity|]. solve_after.
Qed.

(** X1.  [add_workspace_admins] never raises: whatever the services answer,
    a response of any status or a transport failure, it returns normally
    after exactly one call, the grant, and leaves the globals as they are. *)
Theorem add_workspace_admins_never_raises (workspace_id : json) (developer : string)
    (token : json) (w : World Remote) :
  let rq := admin_request workspace_id developer token in
  exists w',
    add_workspace_admins workspace_id developer token w = (Returns tt, w') /\
    events w' = (events w ++ [Http rq])%list /\
    remote w' = snd (serve rq (remote w)) /\
    globals w' = globals w.
Proof.
  intros rq.
  destruct (add_workspace_admins_run workspace_id developer token w)
    as [w' [Hrun (Hg & He & Hr)]].
  exists w'. split; [exact Hrun|]. split; [exact He|]. split; [exact Hr|exact Hg].
Qed.

(** ** Workspace creation without conflict *)

(** X2.  When the creation of the workspace fails in transport or is
    answered with a status other than 201 and 409,
    [create_fabric_workspace] does not raise: it returns [None] after that
    one call. *)
Theorem create_fabric_workspace_not_created (workspace_name cpty_id : string)
    (token : json) (w : World Remote) :
  let rq := create_request (globals w) workspace_name cpty_id token in
  creates_nothing (fst (serve rq (remote w))) ->
  exists w',
    create_fabric_workspace workspace_name cpty_id token w = (Returns JNull, w') /\
    events w' = (events w ++ [Http rq])%list /\
    remote w' = snd (serve rq (remote w)).
Proof.
  intros rq Hnothing. unfold create_fabric_workspace, try_except.
  unfold bind at 1. unfold logging at 1.
  unfold bind at 1. unfold read_globals at 1. cbn [globals].
  unfold bind at 1. unfold requests_post.
  change (mk_request POST _ _ _) with rq.
  rewrite send_run.
  change (remote {| globals := _; remote := remote w; events := _; log := _ |})
    with (remote w).
  destruct (fst (serve rq (remote w))) as [r|detail] eqn:Hreply.
  - destruct Hnothing as [H201 H409].
    apply Z.eqb_neq in H201. apply Z.eqb_neq in H409.
    unfold bind at 1. unfold logging at 1. rewrite H409, H201.
    unfold bind, logging, ret.
    eexists. split; [reflexivity|]. split; reflexivity.
  - cbn [is_RequestException]. unfold bind, logging, ret.
    eexists. split; [reflexivity|]. split; reflexivity.
Qed.

(** X3.  When the creation is answered 201, what
    [create_fabric_workspace] gives depends on the body alone: the member
    "id" of a JSON object ([None] when there is none), [None] when the body
    is not JSON, and an [AttributeError], which its [except] clause does not
    catch, when the body is JSON but not an object. *)
Theorem create_fabric_workspace_created (workspace_name cpty_id : string)
    (token : json) (w : World Remote) (r : response) :
  let rq := create_request (globals w) workspace_name cpty_id token in
  fst (serve rq (remote w)) = Responds r ->
  status_code r = 201 ->
  exists w',
    create_fabric_workspace workspace_name cpty_id token w =
      (match body r with
       | Some (JObj members) => Returns (field members "id")
       | Some _ => Raises (AttributeError "get")
       | None => Returns JNull
       end, w') /\
    events w' = (events w ++ [Http rq])%list.
Proof.
  intros rq Hreply Hstatus. unfold create_fabric_workspace, try_except.
  unfold bind at 1. unfold logging at 1.
  unfold bind at 1. unfold read_globals at 1. cbn [globals].
  unfold bind at 1. unfold requests_post.
  change (mk_request POST _ _ _) with rq.
  rewrite send_run.
  change (remote {| globals := _; remote := remote w; events := _; log := _ |})
    with (remote w).
  rewrite Hreply.
  unfold bind at 1. unfold logging at 1. rewrite Hstatus.
  cbn [Z.eqb Pos.eqb].
  unfold response_json, py_get, field.
  destruct (body r) as [[| | | | |members]|];
    unfold bind, lift, logging, ret, raise; cbn [is_RequestException];
    (eexists; split; [reflexivity|]; reflexivity).
Qed.

(** ** The base commit *)

Lemma branch_exists_run (owner repo_name : string) (branch_name : option string)
    (token : string) (w : World Remote) :
  let rq := lookup_request (globals w) owner repo_name branch_name token in
  branch_exists owner repo_name branch_name token w =
    (Returns (match fst (serve rq (remote w)) with
              | Responds r => status_code r =? 200
              | Fails _ => false
              end),
     called rq w).
Proof.
  intros rq. unfold branch_exists, try_except.
  unfold bind at 1. unfold read_globals at 1.
  unfold bind at 1. unfold requests_get.
  change (mk_request GET _ _ _) with rq. rewrite send_run.
  destruct (fst (serve rq (remote w))); reflexivity.
Qed.

Lemma get_github_branch_sha_refused (owner repo_name branch_name token : string)
    (w : World Remote) :
  let rq := lookup_request (globals w) owner repo_name (Some branch_name) token in
  refused (fst (serve rq (remote w))) ->
  exists w',
    get_github_branch_sha owner repo_name branch_name token w = (Returns JNull, w') /\
    after [rq] w w'.
Proof.
  intros rq Hrefused. unfold get_github_branch_sha, try_except.
  unfold bind at 1. unfold logging at 1.
  unfold bind at 1. unfold read_globals at 1. cbn [globals].
  unfold bind at 1. unfold requests_get.
  change (mk_request GET _ _ _) with rq. rewrite send_run.
  change (remote {| globals := _; remote := remote w; events := _; log := _ |})
    with (remote w).
  destruct (fst (serve rq (remote w))) as [r|detail].
  - cbn in Hrefused. unfold accepted in Hrefused. apply negb_false_iff in Hrefused.
    unfold bind at 1. unfold raise_for_status. rewrite Hrefused.
    unfold raise. cbn [is_RequestException]. unfold bind, logging, ret.
    eexists. split; [reflexivity|]. solve_after.
  - cbn [is_RequestException]. unfold bind, logging, ret.
    eexists. split; [reflexivity|]. solve_after.
Qed.

Lemma get_github_branch_sha_found (owner repo_name branch_name token : string)
    (w : World Remote) (r : response) (found object : list (string * json)) (sha : json) :
  let rq := lookup_request (globals w) owner repo_name (Some branch_name) token in
  fst (serve rq (remote w)) = Responds r ->
  accepted r = true ->
  body r = Some (JObj found) ->
  dict_get "object" found = Some (JObj object) ->
  dict_get "sha" object = Some sha ->
  exists w',
    get_github_branch_sha owner repo_name branch_name token w = (Returns sha, w') /\
    after [rq] w w'.
Proof.
  intros rq Hreply Hok Hbody Hobject Hsha. unfold get_github_branch_sha, try_except.
  unfold bind at 1. unfold logging at 1.
  unfold bind at 1. unfold read_globals at 1. cbn [globals].
  unfold bind at 1. unfold requests_get.
  change (mk_request GET _ _ _) with rq. rewrite send_run.
  change (remote {| globals := _; remote := remote w; events := _; log := _ |})
    with (remote w).
  rewrite Hreply.
  unfold accepted in Hok. apply negb_true_iff in Hok.
  unfold bind at 1. unfold raise_for_status. rewrite Hok. unfold ret at 1.
  unfold bind at 1. unfold response_json. rewrite Hbody. unfold ret at 1.
  unfold bind at 1. unfold lift at 1. unfold py_index at 1. rewrite Hobject.
  unfold bind at 1. unfold lift at 1. unfold py_index at 1. rewrite Hsha.
  unfold bind, logging, ret.
  eexists. split; [reflexivity|]. solve_after.
Qed.

(** X4.  [get_github_branch_sha] does not raise when the lookup fails in
    transport or is answered with a client or server error: it returns
    [None] after that one call. *)
Theorem get_github_branch_sha_none_when_refused (owner repo_name branch_name token : string)
    (w : World Remote) :
  let rq := lookup_request (globals w) owner repo_name (Some branch_name) token in
  refused (fst (serve rq (remote w))) ->
  exists w',
    get_github_branch_sha owner repo_name branch_name token w = (Returns JNull, w') /\
    after [rq] w w'.
Proof. exact (get_github_branch_sha_refused owner repo_name branch_name token w). Qed.

(** X5.  A lookup that is answered without error but whose JSON object has
    no member "object" makes [get_github_branch_sha] raise [KeyError]: the
    [except] clause handles request errors only, so the caller gets the
    exception and not [None]. *)
Theorem get_github_branch_sha_key_error (owner repo_name branch_name token : string)
    (w : World Remote) (r : response) (found : list (string * json)) :
  let rq := lookup_request (globals w) owner repo_name (Some branch_name) token in
  fst (serve rq (remote w)) = Responds r ->
  accepted r = true ->
  body r = Some (JObj found) ->
  dict_get "object" found = None ->
  exists w',
    get_github_branch_sha owner repo_name branch_name token w =
      (Raises (KeyError "object"), w') /\
    after [rq] w w'.
Proof.
  intros rq Hreply Hok Hbody Hobject. unfold get_github_branch_sha, try_except.
  unfold bind at 1. unfold logging at 1.
  unfold bind at 1. unfold read_globals at 1. cbn [globals].
  unfold bind at 1. unfold requests_get.
  change (mk_request GET _ _ _) with rq. rewrite send_run.
  change (remote {| globals := _; remote := remote w; events := _; log := _ |})
    with (remote w).
  rewrite Hreply.
  unfold accepted in Hok. apply negb_true_iff in Hok.
  unfold bind at 1. unfold raise_for_status. rewrite Hok. unfold ret at 1.
  unfold bind at 1. unfold response_json. rewrite Hbody. unfold ret at 1.
  unfold bind at 1. unfold lift at 1. unfold py_index at 1. rewrite Hobject.
  cbn [is_RequestException].
  eexists. split; [reflexivity|]. solve_after.
Qed.

(** ** Creating the branch *)

Lemma truthy_str_nonempty (s : string) : s <> "" -> truthy_str s = true.
Proof.
  intros H. unfold truthy_str. destruct (String.eqb_spec s ""); [contradiction|reflexivity].
Qed.

Lemma absent_not_found (answer : reply) :
  absent answer ->
  match answer with Responds r => status_code r =? 200 | Fails _ => false end = false.
Proof.
  destruct answer as [r|detail]; cbn; [|reflexivity].
  intros H. apply Z.eqb_neq. exact H.
Qed.

Lemma create_github_branch_unresolved (owner repo_name main_branch : string)
    (new_branch : option string) (token : string) (w : World Remote) :
  let lookup := lookup_request (globals w) owner repo_name new_branch token in
  let base := lookup_request (globals w) owner repo_name (Some main_branch) token in
  token <> "" ->
  absent (fst (serve lookup (remote w))) ->
  refused (fst (serve base (snd (serve lookup (remote w))))) ->
  exists w',
    create_github_branch owner repo_name main_branch new_branch token w =
      (Raises (ValueError ("Could not find base branch '" ++ main_branch ++ "' in repo '"
                           ++ owner ++ "/" ++ repo_name ++ "'.")), w') /\
    after [lookup; base] w w'.
Proof.
  intros lookup base Htoken Habsent Hrefused. unfold create_github_branch.
  rewrite (truthy_str_nonempty token Htoken). cbn [negb].
  unfold bind at 1. rewrite branch_exists_run. fold lookup.
  rewrite (absent_not_found _ Habsent).
  unfold bind at 1.
  destruct (get_github_branch_sha_refused owner repo_name main_branch token
              (called lookup w) Hrefused) as [w1 [Hrun Hafter]].
  rewrite Hrun. cbn [truthy negb]. unfold raise.
  eexists. split; [reflexivity|].
  exact (after_trans [lookup] [base] w _ w1 (after_call lookup w) Hafter).
Qed.

(** X6.  With a PAT, when the new branch is not reported and the base
    branch cannot be resolved (its lookup fails in transport or is answered
    with a client or server error), [create_github_branch] raises the
    [ValueError] that names the base branch and the repository, after the
    two lookups: no reference is created. *)
Theorem create_github_branch_base_not_found (owner repo_name main_branch : string)
    (new_branch : option string) (token : string) (w : World Remote) :
  let lookup := lookup_request (globals w) owner repo_name new_branch token in
  let base := lookup_request (globals w) owner repo_name (Some main_branch) token in
  token <> "" ->
  absent (fst (serve lookup (remote w))) ->
  refused (fst (serve base (snd (serve lookup (remote w))))) ->
  exists w',
    create_github_branch owner repo_name main_branch new_branch token w =
      (Raises (ValueError ("Could not find base branch '" ++ main_branch ++ "' in repo '"
                           ++ owner ++ "/" ++ repo_name ++ "'.")), w') /\
    after [lookup; base] w w'.
Proof.
  exact (create_github_branch_unresolved owner repo_name main_branch new_branch token w).
Qed.

(** X7.  With a PAT, when the new branch is not reported and the base
    branch resolves to a commit, [create_github_branch] asks for the
    reference [refs/heads/<new branch>] at that commit and the reply
    decides: it returns normally unless the creation fails in transport or
    is answered with a client or server error, and then it raises that very
    error.  The three calls are the two lookups and the creation. *)
Theorem create_github_branch_creates (owner repo_name main_branch : string)
    (new_branch : option string) (token : string) (w : World Remote) (r : response)
    (found object : list (string * json)) (sha : json) (answer : reply) :
  let lookup := lookup_request (globals w) owner repo_name new_branch token in
  let base := lookup_request (globals w) owner repo_name (Some main_branch) token in
  let creation := creation_request (globals w) owner repo_name new_branch sha token in
  let resolved := snd (serve base (snd (serve lookup (remote w)))) in
  token <> "" ->
  absent (fst (serve lookup (remote w))) ->
  fst (serve base (snd (serve lookup (remote w)))) = Responds r ->
  accepted r = true ->
  body r = Some (JObj found) ->
  dict_get "object" found = Some (JObj object) ->
  dict_get "sha" object = Some sha ->
  truthy sha = true ->
  fst (serve creation resolved) = answer ->
  exists w',
    create_github_branch owner repo_name main_branch new_branch token w =
      (settled answer, w') /\
    after [lookup; base; creation] w w'.
Proof.
  intros lookup base creation resolved Htoken Habsent Hreply Hok Hbody Hobject Hsha
    Htruthy Hanswer.
  unfold create_github_branch.
  rewrite (truthy_str_nonempty token Htoken). cbn [negb].
  unfold bind at 1. rewrite branch_exists_run. fold lookup.
  rewrite (absent_not_found _ Habsent).
  unfold bind at 1.
  destruct (get_github_branch_sha_found owner repo_name main_branch token
              (called lookup w) r found object sha Hreply Hok Hbody Hobject Hsha)
    as [w1 [Hrun (Hg & He & Hr)]].
  rewrite Hrun, Htruthy. cbn [negb]. cbn in Hg, He, Hr.
  unfold try_except.
  unfold bind at 1. unfold logging at 1.
  unfold bind at 1. unfold read_globals at 1. cbn [globals]. rewrite Hg.
  unfold bind at 1. unfold requests_post.
  change (mk_request POST _ _ _) with creation. rewrite send_run.
  cbn [remote]. rewrite Hr. fold base. fold resolved. rewrite Hanswer.
  unfold settled.
  destruct answer as [r'|detail].
  - unfold bind at 1. unfold raise_for_status, accepted.
    destruct ((400 <=? status_code r') && (status_code r' <? 600)); cbn [negb].
    + unfold raise. cbn [is_RequestException]. unfold bind, logging, raise.
      eexists. split; [reflexivity|]. unfold after, called. cbn [globals remote events log map fold_left].
      rewrite ?Hg, ?He, ?Hr, <- ?app_assoc. repeat split.
    + unfold ret, logging.
      eexists. split; [reflexivity|]. unfold after, called. cbn [globals remote events log map fold_left].
      rewrite ?Hg, ?He, ?Hr, <- ?app_assoc. repeat split.
  - cbn [is_RequestException]. unfold bind, logging, raise.
    eexists. split; [reflexivity|]. unfold after, called. cbn [globals remote events log map fold_left].
    rewrite ?Hg, ?He, ?Hr, <- ?app_assoc. repeat split.
Qed.

(** ** Listing and creating connections *)

Lemma list_connections_refused (token : json) (w : World Remote) :
  let rq := list_request (globals w) token in
  refused (fst (serve rq (remote w))) ->
  exists w',
    list_connections token w = (Returns (JArr []), w') /\ after [rq] w w'.
Proof.
  intros rq Hrefused. unfold list_connections, try_except.
  unfold bind at 1. unfold read_globals at 1.
  unfold bind at 1. unfold requests_get.
  change (mk_request GET _ _ _) with rq. rewrite send_run.
  destruct (fst (serve rq (remote w))) as [r|detail].
  - cbn in Hrefused. unfold accepted in Hrefused. apply negb_false_iff in Hrefused.
    unfold bind at 1. unfold raise_for_status. rewrite Hrefused.
    unfold raise. cbn [is_RequestException]. unfold bind, logging, ret.
    eexists. split; [reflexivity|]. solve_after.
  - cbn [is_RequestException]. unfold bind, logging, ret.
    eexists. split; [reflexivity|]. solve_after.
Qed.


Lemma find_connection_none (connection_name : string)
    (entries : list (list (string * json))) (w : World Remote) :
  forallb (fun m => negb (usable connection_name m)) entries = true ->
  find_connection connection_name (map JObj entries) w = (Returns None, w).
Proof.
  intros Hnone. induction entries as [|m entries IH]; cbn [map find_connection].
  - reflexivity.
  - cbn [forallb] in Hnone. apply andb_true_iff in Hnone as [Hm Hrest].
    apply negb_true_iff in Hm. unfold usable, field in Hm.
    unfold bind, lift, py_get.
    destruct (eq_str _ connection_name) eqn:Hname at 1.
    + rewrite Hname in Hm. cbn [andb] in Hm. rewrite Hm. apply IH. exact Hrest.
    + apply IH. exact Hrest.
Qed.

(** With nothing to reuse the resolver lists, finds nothing, and is left
    with the creation. *)
Lemma resolver_finds_none (connection_name : string) (token : json) (w : World Remote) :
  let rq := list_request (globals w) token in
  offers_none connection_name (fst (serve rq (remote w))) ->
  exists (items : list json) (w1 : World Remote),
    list_connections token w = (Returns (JArr items), w1) /\
    after [rq] w w1 /\
    forall w2 : World Remote,
      find_connection connection_name items w2 = (Returns None, w2).
Proof.
  intros rq [Hrefused | (r & entries & Hreply & Hlisting & Hnone)].
  - destruct (list_connections_refused token w Hrefused) as [w1 [Hrun Hafter]].
    exists [], w1. split; [exact Hrun|]. split; [exact Hafter|]. reflexivity.
  - exists (map JObj entries), (called rq w).
    split; [exact (list_connections_listing token w r _ Hreply Hlisting)|].
    split; [apply after_call|].
    intros w2. apply find_connection_none. exact Hnone.
Qed.

Lemma resolver_creation (connection_name pat_token : string) (token : json)
    (w : World Remote) (answer : reply) :
  let list_rq := list_request (globals w) token in
  let rq := connection_request (globals w) connection_name pat_token token in
  pat_token <> "" ->
  offers_none connection_name (fst (serve list_rq (remote w))) ->
  fst (serve rq (snd (serve list_rq (remote w)))) = answer ->
  exists w',
    get_or_create_github_pat_connection connection_name pat_token token w =
      (made answer, w') /\
    after [list_rq; rq] w w'.
Proof.
  intros list_rq rq Hpat Hnone Hanswer.
  unfold get_or_create_github_pat_connection.
  rewrite (truthy_str_nonempty pat_token Hpat). cbn [negb].
  destruct (resolver_finds_none connection_name token w Hnone)
    as (items & w1 & Hlist & (Hg & He & Hr) & Hfind).
  cbn in He, Hr. fold list_rq in He, Hr.
  unfold bind at 1. rewrite Hlist.
  unfold bind at 1. unfold lift at 1. cbn [py_iter].
  unfold bind at 1. rewrite Hfind.
  unfold try_except.
  unfold bind at 1. unfold logging at 1.
  unfold bind at 1. unfold read_globals at 1. cbn [globals]. rewrite Hg.
  unfold bind at 1. unfold requests_post.
  change (mk_request POST _ _ _) with rq. rewrite send_run.
  cbn [remote]. rewrite Hr, Hanswer. unfold made.
  destruct answer as [r|detail].
  - destruct (status_code r =? 201).
    + unfold bind at 1. unfold response_json, py_get, field.
      destruct (body r) as [[| | | | |members]|];
        unfold bind, lift, logging, ret, raise; cbn [is_RequestException];
        (eexists; split; [reflexivity|]);
        unfold after, called; cbn [globals remote events log map fold_left];
        rewrite ?Hg, ?He, ?Hr, <- ?app_assoc; repeat split.
    + unfold bind, logging, ret.
      eexists. split; [reflexivity|].
      unfold after, called. cbn [globals remote events log map fold_left].
      rewrite ?Hg, ?He, ?Hr, <- ?app_assoc. repeat split.
  - cbn [is_RequestException]. unfold bind, logging, ret.
    eexists. split; [reflexivity|].
    unfold after, called. cbn [globals remote events log map fold_left].
    rewrite ?Hg, ?He, ?Hr, <- ?app_assoc. repeat split.
Qed.

(** X9.  With a PAT, when the listing offers no connection to reuse (it
    fails, or it holds connection objects none of which has both the
    requested name and an id) and the creation is answered 201 with a JSON
    object, [get_or_create_github_pat_connection] returns the member "id"
    of that object.  Its two calls are the listing and the creation, whose
    body carries the PAT as a key credential. *)
Theorem get_or_create_creates (connection_name pat_token : string) (token : json)
    (w : World Remote) (r : response) (members : list (string * json)) :
  let list_rq := list_request (globals w) token in
  let rq := connection_request (globals w) connection_name pat_token token in
  pat_token <> "" ->
  offers_none connection_name (fst (serve list_rq (remote w))) ->
  fst (serve rq (snd (serve list_rq (remote w)))) = Responds r ->
  status_code r = 201 ->
  body r = Some (JObj members) ->
  exists w',
    get_or_create_github_pat_connection connection_name pat_token token w =
      (Returns (field members "id"), w') /\
    after [list_rq; rq] w w'.
Proof.
  intros list_rq rq Hpat Hnone Hreply Hstatus Hbody.
  destruct (resolver_creation connection_name pat_token token w (Responds r)
              Hpat Hnone Hreply) as [w' [Hrun Hafter]].
  exists w'. split; [|exact Hafter].
  rewrite Hrun. unfold made. rewrite Hstatus, Hbody. reflexivity.
Qed.

(** X10.  With a PAT, when the listing offers no connection to reuse and
    the creation fails in transport or is answered with a status other than
    201, [get_or_create_github_pat_connection] does not raise: it returns
    [None] after the listing and the creation. *)
Theorem get_or_create_not_created (connection_name pat_token : string) (token : json)
    (w : World Remote) :
  let list_rq := list_request (globals w) token in
  let rq := connection_request (globals w) connection_name pat_token token in
  pat_token <> "" ->
  offers_none connection_name (fst (serve list_rq (remote w))) ->
  makes_nothing (fst (serve rq (snd (serve list_rq (remote w))))) ->
  exists w',
    get_or_create_github_pat_connection connection_name pat_token token w =
      (Returns JNull, w') /\
    after [list_rq; rq] w w'.
Proof.
  intros list_rq rq Hpat Hnone Hnothing.
  destruct (resolver_creation connection_name pat_token token w _
              Hpat Hnone eq_refl) as [w' [Hrun Hafter]].
  exists w'. split; [|exact Hafter].
  rewrite Hrun. unfold made. fold list_rq. fold rq.
  destruct (fst (serve rq (snd (serve list_rq (remote w))))) as [r|detail];
    [|reflexivity].
  cbn in Hnothing. apply Z.eqb_neq in Hnothing. rewrite Hnothing. reflexivity.
Qed.

(** ** Connecting without a connection *)

Lemma made_nothing (answer : reply) : makes_nothing answer -> made answer = Returns JNull.
Proof.
  destruct answer as [r|detail]; cbn; [|reflexivity].
  intros H. apply Z.eqb_neq in H. rewrite H. reflexivity.
Qed.

(** X11.  When no connection can be reused and none can be created (the
    creation fails in transport or is answered with a status other than
    201), [connect_branch_to_workspace] raises the [ValueError] of the
    missing credentials connection after the listing and the creation: the
    git-connect call is never made. *)
Theorem connect_without_connection (workspace_id : json) (org_name repo_name : string)
    (branch_name : option string) (git_folder : string) (token : json)
    (w : World Remote) :
  let connection_name := "GitHub PAT - " ++ org_name ++ "/" ++ repo_name in
  let list_rq := list_request (globals w) token in
  let rq := connection_request (globals w) connection_name (GH_PAT_TOKEN (globals w))
              token in
  GH_PAT_TOKEN (globals w) <> "" ->
  offers_none connection_name (fst (serve list_rq (remote w))) ->
  makes_nothing (fst (serve rq (snd (serve list_rq (remote w))))) ->
  exists w',
    connect_branch_to_workspace workspace_id org_name repo_name branch_name git_folder
      token w =
      (Raises (ValueError "Could not obtain/create GitHub credentials connection."), w') /\
    after [list_rq; rq] w w'.
Proof using Type.
  clear identity render_exn.
  intros connection_name list_rq rq Hpat Hnone Hnothing.
  unfold connect_branch_to_workspace, try_except.
  unfold bind at 1. unfold logging at 1.
  unfold bind at 1. unfold read_globals at 1. cbn [globals].
  unfold bind at 1. subst connection_name.
  match goal with
  | |- context [get_or_create_github_pat_connection ?name ?pat _ ?w1] =>
      destruct (resolver_creation name pat token w1 _ Hpat Hnone eq_refl)
        as [w2 [Hrun (Hg & He & Hr)]]
  end.
  rewrite Hrun. cbn [globals remote] in *.
  fold list_rq in Hr |- *. fold rq in Hr |- *.
  rewrite (made_nothing _ Hnothing). cbn [truthy negb].
  unfold bind, logging, raise. cbn [is_RequestException].
  eexists. split; [reflexivity|].
  unfold after. cbn [globals remote events log map fold_left].
  rewrite Hg. split; [reflexivity|]. split; [exact He | exact Hr].
Qed.

(** X12.  With an empty PAT in the globals [connect_branch_to_workspace]
    raises the same [ValueError] without a single call: the resolver
    declines before it lists anything. *)
Theorem connect_without_pat (workspace_id : json) (org_name repo_name : string)
    (branch_name : option string) (git_folder : string) (token : json)
    (w : World Remote) :
  GH_PAT_TOKEN (globals w) = "" ->
  exists w',
    connect_branch_to_workspace workspace_id org_name repo_name branch_name git_folder
      token w =
      (Raises (ValueError "Could not obtain/create GitHub credentials connection."), w') /\
    after [] w w'.
Proof.
  intros Hpat.
  unfold connect_branch_to_workspace, try_except.
  unfold bind at 1. unfold logging at 1.
  unfold bind at 1. unfold read_globals at 1. cbn [globals].
  unfold bind at 1. unfold get_or_create_github_pat_connection.
  rewrite Hpat. cbn [truthy_str String.eqb negb].
  unfold bind, logging, ret, raise. cbn [truthy negb is_RequestException].
  eexists. split; [reflexivity|].
  apply after_nil; reflexivity.
Qed.

(** X13.  With a connection to reuse, a git-connect call that fails in
    transport makes [connect_branch_to_workspace] raise that failure again,
    after it has logged it. *)
Theorem connect_transport_failure (workspace_id : json) (org_name repo_name : string)
    (branch_name : option string) (git_folder : string) (token : json)
    (w : World Remote) (listed : response) (before : list (list (string * json)))
    (m : list (string * json)) (rest : list json) (detail : string) :
  let connection_name := "GitHub PAT - " ++ org_name ++ "/" ++ repo_name in
  let list_rq := list_request (globals w) token in
  let rq := connect_request (globals w) workspace_id org_name repo_name branch_name
              git_folder (field m "id") token in
  GH_PAT_TOKEN (globals w) <> "" ->
  fst (serve list_rq (remote w)) = Responds listed ->
  listing listed (map JObj before ++ JObj m :: rest)%list ->
  forallb (fun b => negb (usable connection_name b)) before = true ->
  usable connection_name m = true ->
  fst (serve rq (snd (serve list_rq (remote w)))) = Fails detail ->
  exists (w' : World Remote) (earlier : list log_record),
    connect_branch_to_workspace workspace_id org_name repo_name branch_name git_folder
      token w = (Raises (ConnectionError detail), w') /\
    after [list_rq; rq] w w' /\
    log w' = (earlier ++ [mk_log ERROR "Error connecting branch to workspace: %s"
                            [AExn (ConnectionError detail)]])%list.
Proof using Type.
  clear identity render_exn.
  intros connection_name list_rq rq Hpat Hlisted Hlisting Hbefore Husable Hreply.
  unfold connect_branch_to_workspace, try_except.
  unfold bind at 1. unfold logging at 1.
  unfold bind at 1. unfold read_globals at 1. cbn [globals].
  unfold bind at 1. subst connection_name.
  match goal with
  | |- context [get_or_create_github_pat_connection ?name ?pat _ ?w1] =>
      rewrite (resolver_reuses name pat token w1 listed
                 before m rest Hpat Hlisted Hlisting Hbefore Husable)
  end.
  assert (Hid : truthy (field m "id") = true).
  { unfold usable in Husable. apply andb_true_iff in Husable. tauto. }
  rewrite Hid. cbn [negb].
  unfold bind at 1. unfold read_globals at 1. cbn [globals logged called].
  unfold bind at 1. unfold requests_post.
  change (mk_request POST _ _ _) with rq.
  rewrite send_run.
  match goal with
  | |- context [fst (serve rq ?st)] =>
      change (fst (serve rq st)) with (fst (serve rq (snd (serve list_rq (remote w)))))
  end.
  rewrite Hreply. cbn [is_RequestException]. unfold bind, logging, raise.
  eexists. eexists. split; [reflexivity|]. split; [solve_after|].
  cbn [log]. reflexivity.
Qed.

(** ** The poller on any service *)

(** Whatever the loop raises is an [Exception], and an operation state it
    hands back carries a status that is not pending. *)
Lemma polling_loop_outcome (uri : option string) (retry_after : nat)
    (headers : list (string * string)) (fuel : nat) :
  forall w : World Remote,
    match fst (polling_loop fuel uri retry_after headers w) with
    | Returns operation_state =>
        exists status, py_index operation_state "status" = Returns status /\
                       pending status = false
    | Raises e => is_Exception e = true
    | Diverges => True
    end.
Proof.
  induction fuel as [|fuel IH]; intros w; cbn [polling_loop].
  - exact I.
  - unfold bind at 1.
    assert (Hnext : forall (r : response) (w1 : World Remote),
      match fst ((operation_state <- response_json r ;;
                  logging INFO "operation state = %s" [AVal operation_state] ;;;
                  logged <- lift (py_index operation_state "status") ;;
                  logging INFO "Long running operation status: %s" [AVal logged] ;;;
                  status <- lift (py_index operation_state "status") ;;
                  if in_strs status ["NotStarted"; "Running"] then
                    time_sleep retry_after ;;;
                    polling_loop fuel uri retry_after headers
                  else ret operation_state) w1) with
      | Returns operation_state =>
          exists status, py_index operation_state "status" = Returns status /\
                         pending status = false
      | Raises e => is_Exception e = true
      | Diverges => True
      end).
    { intros r w1. unfold bind at 1. unfold response_json.
      destruct (body r) as [operation_state|]; [|reflexivity].
      unfold ret at 1. unfold bind at 1. unfold logging at 1.
      unfold bind at 1. unfold lift at 1.
      destruct (py_index operation_state "status") as [status|e|] eqn:Hstatus.
      - unfold bind at 1. unfold logging at 1.
        unfold bind at 1. unfold lift at 1.
        destruct (in_strs status ["NotStarted"; "Running"]) eqn:Hpending.
        + unfold bind at 1. unfold time_sleep, emit. apply IH.
        + unfold ret. cbn [fst]. exists status. split; [exact Hstatus|exact Hpending].
      - cbn [fst]. unfold py_index in Hstatus.
        destruct operation_state as [| | | | |members]; try (injection Hstatus as <-; reflexivity).
        destruct (dict_get "status" members); [discriminate|].
        injection Hstatus as <-. reflexivity.
      - exact I. }
    destruct uri as [u|].
    + unfold requests_get. rewrite send_run.
      destruct (fst (serve _ (remote w))) as [r|detail]; [apply Hnext | reflexivity].
    + reflexivity.
Qed.

Lemma polling_does_not_raise (fuel : nat) (uri : option string) (retry_after : nat)
    (headers : list (string * string)) (w : World Remote) (e : exn) :
  fst (long_running_operation_polling fuel uri retry_after headers w) <> Raises e.
Proof.
  unfold long_running_operation_polling, try_except.
  unfold bind at 1. unfold logging at 1. unfold bind at 1.
  match goal with
  | |- context [polling_loop _ _ _ _ ?w1] =>
      pose proof (polling_loop_outcome uri retry_after headers fuel w1) as Hloop;
      destruct (polling_loop fuel uri retry_after headers w1) as [[os|e'|] w2]
  end; cbn [fst] in Hloop.
  - destruct Hloop as [status [Hstatus _]].
    unfold bind at 1. unfold lift at 1. rewrite Hstatus.
    destruct (eq_str status "Failed").
    + unfold bind at 1. unfold lift at 1. unfold py_get_default.
      destruct os as [| | | | |members]; try discriminate Hstatus.
      unfold bind, logging, ret. discriminate.
    + unfold bind at 1. unfold logging at 1. unfold lift.
      discriminate.
  - rewrite Hloop. unfold bind, logging, ret. discriminate.
  - discriminate.
Qed.

(** X14.  [long_running_operation_polling] never raises, whatever the
    services answer and however long it is allowed to run: a fetch that
    fails, a body that is not JSON or an operation state without status end
    the polling with [None].  It either returns or is still polling. *)
Theorem polling_never_raises (fuel : nat) (uri : option string) (retry_after : nat)
    (headers : list (string * string)) (w : World Remote) :
  exists w',
    long_running_operation_polling fuel uri retry_after headers w = (Diverges, w') \/
    exists v, long_running_operation_polling fuel uri retry_after headers w
              = (Returns v, w').
Proof.
  pose proof (polling_does_not_raise fuel uri retry_after headers w) as Hnever.
  destruct (long_running_operation_polling fuel uri retry_after headers w)
    as [[v|e|] w'].
  - exists w'. right. exists v. reflexivity.
  - exfalso. exact (Hnever e eq_refl).
  - exists w'. left. reflexivity.
Qed.

(** X15.  Whatever the services answer, a value that
    [long_running_operation_polling] returns is never a pending status and
    never the status Failed: the caller sees [None] or a terminal status
    other than Failed. *)
Theorem polling_returns_terminal (fuel : nat) (uri : option string) (retry_after : nat)
    (headers : list (string * string)) (w w' : World Remote) (v : json) :
  long_running_operation_polling fuel uri retry_after headers w = (Returns v, w') ->
  pending v = false /\ eq_str v "Failed" = false.
Proof.
  unfold long_running_operation_polling, try_except.
  unfold bind at 1. unfold logging at 1. unfold bind at 1.
  match goal with
  | |- context [polling_loop _ _ _ _ ?w1] =>
      pose proof (polling_loop_outcome uri retry_after headers fuel w1) as Hloop;
      destruct (polling_loop fuel uri retry_after headers w1) as [[os|e'|] w2]
  end; cbn [fst] in Hloop.
  - destruct Hloop as [status [Hstatus Hterminal]].
    unfold bind at 1. unfold lift at 1. rewrite Hstatus.
    destruct (eq_str status "Failed") eqn:Hfailed.
    + unfold bind at 1. unfold lift at 1. unfold py_get_default.
      destruct os as [| | | | |members]; try discriminate Hstatus.
      unfold bind, logging, ret. intros H. injection H as <- _. split; reflexivity.
    + unfold bind at 1. unfold logging at 1. unfold lift.
      intros H. injection H as <- _. split; assumption.
  - rewrite Hloop. unfold bind, logging, ret.
    intros H. injection H as <- _. split; reflexivity.
  - discriminate.
Qed.

Lemma rounds_then_fetch (rq : request) (retry_after n : nat) :
  (rounds rq retry_after n ++ [Http rq])%list = polls rq retry_after (S n).
Proof.
  induction n as [|n IH]; [reflexivity|].
  change (polls rq retry_after (S (S n)))
    with (Http rq :: Sleep retry_after :: polls rq retry_after (S n)).
  cbn [rounds app]. rewrite IH. reflexivity.
Qed.

(** While the statuses are pending the loop goes round: after as many
    rounds as there are pending replies it is where it started, with the
    rounds behind it. *)
Lemma polling_loop_waits (uri : string) (retry_after : nat)
    (headers : list (string * string)) (waiting : list response) :
  forall (w : World Remote) (k : nat),
    let rq := status_request uri headers in
    replies rq (remote w) (length waiting) = map Responds waiting ->
    Forall (fun r => exists st, status_of r = Some st /\ pending st = true) waiting ->
    exists w1,
      polling_loop (length waiting + k) (Some uri) retry_after headers w =
        polling_loop k (Some uri) retry_after headers w1 /\
      globals w1 = globals w /\
      events w1 = (events w ++ rounds rq retry_after (length waiting))%list /\
      remote w1 = advance rq (remote w) (length waiting).
Proof.
  induction waiting as [|r waiting IH]; intros w k rq Hreplies Hwaiting.
  - exists w. cbn. rewrite app_nil_r. auto.
  - cbn [length map] in Hreplies.
    change (replies rq (remote w) (S (length waiting)))
      with (fst (serve rq (remote w))
            :: replies rq (snd (serve rq (remote w))) (length waiting)) in Hreplies.
    injection Hreplies as Hreply Hrest.
    inversion Hwaiting as [|? ? [st [Hst Hpending]] Hwaiting']; subst.
    unfold status_of in Hst.
    destruct (body r) as [[| | | | |members]|] eqn:Hbody; try discriminate.
    cbn [length Nat.add polling_loop]. unfold bind at 1. unfold requests_get.
    change (mk_request GET uri headers None) with rq.
    rewrite send_run, Hreply.
    unfold bind at 1. unfold response_json at 1. rewrite Hbody. unfold ret at 1.
    unfold bind at 1. unfold logging at 1.
    unfold bind at 1. unfold lift at 1. unfold py_index at 1. rewrite Hst.
    unfold bind at 1. unfold logging at 1.
    unfold bind at 1. unfold lift at 1. unfold py_index at 1. rewrite Hst.
    unfold pending in Hpending. rewrite Hpending.
    unfold bind at 1. unfold time_sleep, emit.
    match goal with
    | |- exists w1, polling_loop _ _ _ _ ?w0 = _ /\ _ =>
        destruct (IH w0 k Hrest Hwaiting') as (w1 & Hrun & Hg & He & Hr)
    end.
    exists w1. split; [exact Hrun|].
    cbn [globals events remote called] in Hg, He, Hr.
    split; [exact Hg|]. split.
    + rewrite He. cbn [rounds]. rewrite <- !app_assoc. reflexivity.
    + exact Hr.
Qed.

(** X16.  The poller has no bound of its own: for every number of rounds,
    when the services answer that many fetches in a row with a pending
    status, the poller has made that many fetches, slept the retry interval
    after each, and is still polling. *)
Theorem polling_is_unbounded (uri : string) (retry_after : nat)
    (headers : list (string * string)) (w : World Remote) (waiting : list response) :
  let rq := status_request uri headers in
  replies rq (remote w) (length waiting) = map Responds waiting ->
  Forall (fun r => exists st, status_of r = Some st /\ pending st = true) waiting ->
  exists w',
    long_running_operation_polling (length waiting) (Some uri) retry_after headers w =
      (Diverges, w') /\
    events w' = (events w ++ rounds rq retry_after (length waiting))%list.
Proof.
  intros rq Hreplies Hwaiting.
  unfold long_running_operation_polling, try_except.
  unfold bind at 1. unfold logging at 1. unfold bind at 1.
  match goal with
  | |- context [polling_loop _ _ _ _ ?w0] =>
      destruct (polling_loop_waits uri retry_after headers waiting w0 O
                  Hreplies Hwaiting) as (w1 & Hrun & _ & He & _)
  end.
  rewrite Nat.add_0_r in Hrun. rewrite Hrun. cbn [polling_loop]. unfold diverge.
  exists w1. split; [reflexivity|exact He].
Qed.

(** X17.  When, after any number of pending statuses, a fetch cannot be
    read (it fails in transport, its body is not JSON or not an object, or
    the object has no "status"), the poller stops there: it logs the error
    and returns [None] without raising and without a further fetch. *)
Theorem polling_gives_up_on_broken_fetch (uri : string) (retry_after : nat)
    (headers : list (string * string)) (w : World Remote) (waiting : list response)
    (e : exn) (fuel : nat) :
  let rq := status_request uri headers in
  replies rq (remote w) (length waiting) = map Responds waiting ->
  Forall (fun r => exists st, status_of r = Some st /\ pending st = true) waiting ->
  breaks (fst (serve rq (advance rq (remote w) (length waiting)))) = Some e ->
  (length waiting < fuel)%nat ->
  exists (w' : World Remote) (earlier : list log_record),
    long_running_operation_polling fuel (Some uri) retry_after headers w =
      (Returns JNull, w') /\
    events w' = (events w ++ polls rq retry_after (S (length waiting)))%list /\
    log w' = (earlier ++ [mk_log ERROR "The long running operation failed with error: %s"
                            [AExn e]])%list.
Proof.
  intros rq Hreplies Hwaiting Hbreaks Hfuel.
  replace fuel with (length waiting + S (fuel - length waiting - 1))%nat by lia.
  unfold long_running_operation_polling, try_except.
  unfold bind at 1. unfold logging at 1. unfold bind at 1.
  match goal with
  | |- context [polling_loop _ _ _ _ ?w0] =>
      destruct (polling_loop_waits uri retry_after headers waiting w0
                  (S (fuel - length waiting - 1)) Hreplies Hwaiting)
        as (w1 & Hrun & _ & He & Hr)
  end.
  rewrite Hrun. cbn [polling_loop]. cbn [events remote] in He, Hr.
  fold rq in He, Hr.
  unfold bind at 1. unfold requests_get.
  change (mk_request GET uri headers None) with rq.
  rewrite send_run, Hr.
  assert (Hevents : events (called rq w1)
                    = (events w ++ polls rq retry_after (S (length waiting)))%list).
  { unfold called. cbn [events]. rewrite He, <- app_assoc, rounds_then_fetch.
    reflexivity. }
  unfold breaks in Hbreaks.
  destruct (fst (serve rq (advance rq (remote w) (length waiting)))) as [r|detail].
  - unfold bind at 1. unfold response_json.
    destruct (body r) as [operation_state|].
    + unfold ret at 1. unfold bind at 1. unfold logging at 1.
      unfold bind at 1. unfold lift at 1. unfold py_index at 1.
      destruct operation_state as [| | | | |members];
        try (injection Hbreaks as <-; cbn [is_Exception]; unfold bind, logging, ret;
             eexists; eexists; (split; [reflexivity|]);
             (split; [exact Hevents|reflexivity])).
      destruct (dict_get "status" members); [discriminate|].
      injection Hbreaks as <-. cbn [is_Exception]. unfold bind, logging, ret.
      eexists. eexists. split; [reflexivity|]. split; [exact Hevents|reflexivity].
    + injection Hbreaks as <-. unfold raise. cbn [is_Exception].
      unfold bind, logging, ret.
      eexists. eexists. split; [reflexivity|]. split; [exact Hevents|reflexivity].
  - injection Hbreaks as <-. cbn [is_Exception]. unfold bind, logging, ret.
    eexists. eexists. split; [reflexivity|]. split; [exact Hevents|reflexivity].
Qed.

(** ** Initializing the workspace from git *)

(** X18.  When the initialization of the git connection fails in transport
    or is answered with any status other than 200 (202 included),
    [initialize_workspace_from_git] returns normally after that one call:
    no update is requested and nothing is raised. *)
Theorem initialize_stops_unless_200 (fuel : nat) (workspace_id token : json)
    (w : World Remote) :
  let rq := initialize_request (globals w) workspace_id token in
  other_than 200 (fst (serve rq (remote w))) ->
  exists w',
    initialize_workspace_from_git fuel workspace_id token w = (Returns tt, w') /\
    after [rq] w w'.
Proof.
  intros rq Hother. unfold initialize_workspace_from_git, try_except.
  unfold bind at 1. unfold read_globals at 1.
  unfold bind at 1. unfold logging at 1.
  unfold bind at 1. unfold requests_post.
  change (mk_request POST _ _ None) with rq. rewrite send_run.
  change (remote {| globals := _; remote := remote w; events := _; log := _ |})
    with (remote w).
  destruct (fst (serve rq (remote w))) as [r|detail].
  - cbn in Hother. apply Z.eqb_neq in Hother. rewrite Hother.
    destruct (status_code r =? 202); unfold logging;
      (eexists; split; [reflexivity|]); solve_after.
  - cbn [is_RequestException]. unfold logging.
    eexists. split; [reflexivity|]. solve_after.
Qed.

(** X19.  When the initialization is answered 200 with a JSON body that is
    not an object, [initialize_workspace_from_git] raises an
    [AttributeError]: its [except] clause handles request errors only, so
    this one reaches the caller. *)
Theorem initialize_raises_on_malformed_status (fuel : nat) (workspace_id token : json)
    (w : World Remote) (r : response) (v : json) :
  let rq := initialize_request (globals w) workspace_id token in
  fst (serve rq (remote w)) = Responds r ->
  status_code r = 200 ->
  body r = Some v ->
  (forall members, v <> JObj members) ->
  exists w',
    initialize_workspace_from_git fuel workspace_id token w =
      (Raises (AttributeError "get"), w') /\
    after [rq] w w'.
Proof.
  intros rq Hreply Hstatus Hbody Hshape.
  unfold initialize_workspace_from_git, try_except.
  unfold bind at 1. unfold read_globals at 1.
  unfold bind at 1. unfold logging at 1.
  unfold bind at 1. unfold requests_post.
  change (mk_request POST _ _ None) with rq. rewrite send_run.
  change (remote {| globals := _; remote := remote w; events := _; log := _ |})
    with (remote w).
  rewrite Hreply, Hstatus. cbn [Z.eqb Pos.eqb].
  unfold bind at 1. unfold response_json. rewrite Hbody. unfold ret at 1.
  unfold bind at 1. unfold lift at 1. unfold py_get at 1.
  destruct v as [| | | | |members];
    try (cbn [is_RequestException]; eexists; split; [reflexivity|]; solve_after).
  exfalso. exact (Hshape members eq_refl).
Qed.

(** X20.  When the initialization is answered 200 with a git status, the
    update from git is requested with the heads of that status, remote sync
    and override allowed.  If the update fails in transport or is answered
    with any status other than 202, [initialize_workspace_from_git] returns
    normally after these two calls: it neither polls nor raises. *)
Theorem initialize_updates_once (fuel : nat) (workspace_id token : json)
    (w : World Remote) (r : response) (git_status : list (string * json)) :
  let rq := initialize_request (globals w) workspace_id token in
  let update := update_request (globals w) workspace_id token git_status in
  fst (serve rq (remote w)) = Responds r ->
  status_code r = 200 ->
  body r = Some (JObj git_status) ->
  other_than 202 (fst (serve update (snd (serve rq (remote w))))) ->
  exists w',
    initialize_workspace_from_git fuel workspace_id token w = (Returns tt, w') /\
    after [rq; update] w w'.
Proof.
  intros rq update Hreply Hstatus Hbody Hother.
  unfold initialize_workspace_from_git, try_except.
  unfold bind at 1. unfold read_globals at 1.
  unfold bind at 1. unfold logging at 1.
  unfold bind at 1. unfold requests_post.
  change (mk_request POST _ _ None) with rq. rewrite send_run.
  change (remote {| globals := _; remote := remote w; events := _; log := _ |})
    with (remote w).
  rewrite Hreply, Hstatus. cbn [Z.eqb Pos.eqb].
  unfold bind at 1. unfold response_json. rewrite Hbody. unfold ret at 1.
  unfold bind at 1. unfold lift at 1. unfold py_get at 1.
  unfold bind at 1. unfold lift at 1. unfold py_get at 1.
  unfold bind at 1.
  change (mk_request POST _ _ (Some _)) with update. rewrite send_run.
  change (remote (called rq _)) with (snd (serve rq (remote w))).
  destruct (fst (serve update (snd (serve rq (remote w))))) as [r2|detail].
  - cbn in Hother. apply Z.eqb_neq in Hother. rewrite Hother.
    destruct (status_code r2 =? 200); unfold bind, read_globals, logging;
      (eexists; split; [reflexivity|]); solve_after.
  - cbn [is_RequestException]. unfold logging.
    eexists. split; [reflexivity|]. solve_after.
Qed.

(** X21.  When the update from git is accepted with 202 and names a
    polling location, [initialize_workspace_from_git] sleeps 15 seconds and
    polls that location every 15 seconds with its own headers, up to the
    first status that is not pending, and then returns normally whatever
    that status is: a synchronization that ends in Failed is not raised to
    the caller. *)
Theorem initialize_polls_after_202 (fuel : nat) (workspace_id token : json)
    (w : World Remote) (r r2 : response) (git_status : list (string * json))
    (uri : string) (waiting : list response) (final : response)
    (state : list (string * json)) (status : json) :
  let rq := initialize_request (globals w) workspace_id token in
  let update := update_request (globals w) workspace_id token git_status in
  let fetch := status_request uri [("Authorization", "Bearer " ++ str token)] in
  let updating := snd (serve update (snd (serve rq (remote w)))) in
  fst (serve rq (remote w)) = Responds r ->
  status_code r = 200 ->
  body r = Some (JObj git_status) ->
  fst (serve update (snd (serve rq (remote w)))) = Responds r2 ->
  status_code r2 = 202 ->
  header_get "Location" (resp_headers r2) = Some uri ->
  replies fetch updating (S (length waiting)) = map Responds (waiting ++ [final]) ->
  Forall (fun r => exists st, status_of r = Some st /\ pending st = true) waiting ->
  body final = Some (JObj state) ->
  dict_get "status" state = Some status ->
  pending status = false ->
  (S (length waiting) <= fuel)%nat ->
  exists w',
    initialize_workspace_from_git fuel workspace_id token w = (Returns tt, w') /\
    events w' = (events w ++ [Http rq; Http update; Sleep 15]
                 ++ polls fetch 15 (S (length waiting)))%list.
Proof.
  intros rq update fetch updating Hreply Hstatus Hbody Hreply2 Hstatus2 Hlocation
    Hreplies Hwaiting Hstate Hfinal Hterminal Hfuel.
  unfold initialize_workspace_from_git, try_except.
  unfold bind at 1. unfold read_globals at 1.
  unfold bind at 1. unfold logging at 1.
  unfold bind at 1. unfold requests_post.
  change (mk_request POST _ _ None) with rq. rewrite send_run.
  change (remote {| globals := _; remote := remote w; events := _; log := _ |})
    with (remote w).
  rewrite Hreply, Hstatus. cbn [Z.eqb Pos.eqb].
  unfold bind at 1. unfold response_json. rewrite Hbody. unfold ret at 1.
  unfold bind at 1. unfold lift at 1. unfold py_get at 1.
  unfold bind at 1. unfold lift at 1. unfold py_get at 1.
  unfold bind at 1.
  change (mk_request POST _ _ (Some _)) with update. rewrite send_run.
  change (remote (called rq _)) with (snd (serve rq (remote w))).
  rewrite Hreply2, Hstatus2. cbn [Z.eqb Pos.eqb].
  unfold bind at 1. unfold logging at 1. rewrite Hlocation.
  unfold bind at 1. unfold logging at 1.
  unfold bind at 1. unfold time_sleep, emit.
  unfold bind at 1.
  match goal with
  | |- context [long_running_operation_polling _ _ _ ?headers ?w0] =>
      destruct (polling_run uri 15%nat headers w0 waiting final state status fuel
                  Hreplies Hwaiting Hstate Hfinal Hterminal Hfuel)
        as (w' & earlier & Hrun & Hevents & _)
  end.
  rewrite Hrun. unfold ret.
  exists w'. split; [reflexivity|].
  rewrite Hevents. unfold called. cbn [events]. rewrite <- !app_assoc. reflexivity.
Qed.

(** X22.  When the update is accepted with 202 but names no polling
    location, [initialize_workspace_from_git] still sleeps 15 seconds, the
    poller gives up without a single fetch, and the function returns
    normally. *)
Theorem initialize_without_location (fuel : nat) (workspace_id token : json)
    (w : World Remote) (r r2 : response) (git_status : list (string * json)) :
  let rq := initialize_request (globals w) workspace_id token in
  let update := update_request (globals w) workspace_id token git_status in
  fst (serve rq (remote w)) = Responds r ->
  status_code r = 200 ->
  body r = Some (JObj git_status) ->
  fst (serve update (snd (serve rq (remote w)))) = Responds r2 ->
  status_code r2 = 202 ->
  header_get "Location" (resp_headers r2) = None ->
  (0 < fuel)%nat ->
  exists w',
    initialize_workspace_from_git fuel workspace_id token w = (Returns tt, w') /\
    events w' = (events w ++ [Http rq; Http update; Sleep 15])%list.
Proof.
  intros rq update Hreply Hstatus Hbody Hreply2 Hstatus2 Hlocation Hfuel.
  destruct fuel as [|fuel]; [lia|].
  unfold initialize_workspace_from_git, try_except.
  unfold bind at 1. unfold read_globals at 1.
  unfold bind at 1. unfold logging at 1.
  unfold bind at 1. unfold requests_post.
  change (mk_request POST _ _ None) with rq. rewrite send_run.
  change (remote {| globals := _; remote := remote w; events := _; log := _ |})
    with (remote w).
  rewrite Hreply, Hstatus. cbn [Z.eqb Pos.eqb].
  unfold bind at 1. unfold response_json. rewrite Hbody. unfold ret at 1.
  unfold bind at 1. unfold lift at 1. unfold py_get at 1.
  unfold bind at 1. unfold lift at 1. unfold py_get at 1.
  unfold bind at 1.
  change (mk_request POST _ _ (Some _)) with update. rewrite send_run.
  change (remote (called rq _)) with (snd (serve rq (remote w))).
  rewrite Hreply2, Hstatus2. cbn [Z.eqb Pos.eqb].
  unfold bind at 1. unfold logging at 1. rewrite Hlocation.
  unfold bind at 1. unfold logging at 1.
  unfold bind at 1. unfold time_sleep, emit.
  unfold long_running_operation_polling, try_except. cbn [polling_loop].
  unfold bind, logging, raise, ret. cbn [is_Exception].
  eexists. split; [reflexivity|].
  unfold called. cbn [events]. rewrite <- !app_assoc. reflexivity.
Qed.

(** ** The run as a whole *)

Lemma create_fabric_workspace_run (workspace_name cpty_id : string) (token : json)
    (w : World Remote) :
  let rq := create_request (globals w) workspace_name cpty_id token in
  exists w',
    create_fabric_workspace workspace_name cpty_id token w =
      (created (fst (serve rq (remote w))), w') /\
    after [rq] w w'.
Proof.
  intros rq. unfold create_fabric_workspace, try_except.
  unfold bind at 1. unfold logging at 1.
  unfold bind at 1. unfold read_globals at 1. cbn [globals].
  unfold bind at 1. unfold requests_post.
  change (mk_request POST _ _ _) with rq.
  rewrite send_run.
  change (remote {| globals := _; remote := remote w; events := _; log := _ |})
    with (remote w).
  unfold created.
  destruct (fst (serve rq (remote w))) as [r|detail].
  - unfold bind at 1. unfold logging at 1.
    destruct (status_code r =? 409).
    + unfold bind, logging, raise. cbn [is_RequestException].
      eexists. split; [reflexivity|]. solve_after.
    + destruct (status_code r =? 201).
      * unfold response_json, py_get, field.
        destruct (body r) as [[| | | | |members]|];
          unfold bind, lift, logging, ret, raise; cbn [is_RequestException];
          (eexists; split; [reflexivity|]); solve_after.
      * unfold bind, logging, ret.
        eexists. split; [reflexivity|]. solve_after.
  - cbn [is_RequestException]. unfold bind, logging, ret.
    eexists. split; [reflexivity|]. solve_after.
Qed.

(** With a PAT and a bearer token [main] binds the arguments and goes on
    to provision, having made no call. *)
Lemma main_provisions (fuel : nat) (args : Args) (token : json) (w : World Remote) :
  arg_GH_PAT_TOKEN args <> "" ->
  session_token args token ->
  exists w1,
    main fuel (inr args) w = provision fuel (bound args (globals w)) token w1 /\
    globals w1 = bound args (globals w) /\
    events w1 = events w /\
    remote w1 = remote w.
Proof.
  intros Hpat Hsession. unfold main, set_main_parameters.
  unfold bind at 1. unfold logging at 1.
  unfold bind at 1. unfold bind at 1. unfold try_except, external.
  unfold bind at 1. unfold logging at 1.
  unfold bind at 1. unfold read_globals at 1. unfold write_globals.
  unfold bind at 1. unfold read_globals at 1.
  cbn [globals]. fold (bound args (globals w)).
  cbn [bound GH_PAT_TOKEN FABRIC_TOKEN TENANT_ID CLIENT_ID USERNAME PASSWORD].
  rewrite (truthy_str_nonempty _ Hpat). cbn [negb].
  fold (bound args (globals w)).
  destruct Hsession as [[Hfabric ->] | (Hfabric & members & Hidentity & Htoken & Htruthy)].
  - rewrite (truthy_str_nonempty _ Hfabric).
    unfold bind at 1. unfold bind at 1. unfold logging at 1.
    unfold bind at 1. unfold logging at 1.
    unfold bind at 1. unfold logging at 1. unfold ret at 1.
    cbn [truthy]. fold (truthy_str (arg_FABRIC_TOKEN args)).
    rewrite (truthy_str_nonempty _ Hfabric). cbn [negb].
    eexists. split; [reflexivity|]. repeat split.
  - rewrite Hfabric. cbn [truthy_str String.eqb negb].
    unfold bind at 1. unfold bind at 1. unfold logging at 1.
    unfold acquire_token_user_id_password.
    unfold bind at 1. unfold external at 1. rewrite Hidentity.
    unfold dict_has. rewrite Htoken. unfold lift, py_index. rewrite Htoken.
    rewrite Htruthy. cbn [negb].
    eexists. split; [reflexivity|]. repeat split.
Qed.

(** What [main] does up to the creation of the workspace, and what the
    creation gives it. *)
Lemma main_creation (fuel : nat) (args : Args) (token : json) (w : World Remote) :
  let rq := create_request (globals w) (arg_WORKSPACE_NAME args) (arg_CAPACITY_ID args)
              token in
  arg_GH_PAT_TOKEN args <> "" ->
  session_token args token ->
  exists w2 : World Remote,
    main fuel (inr args) w =
      match created (fst (serve rq (remote w))) with
      | Returns workspace_id =>
          if negb (truthy workspace_id) then
            (Raises (ValueError "Could not create Fabric workspace."),
             logged ERROR
               "Terminating branch out process as target workspace could not be created. Check permissions or provide a valid Fabric token."
               [] w2)
          else configure fuel (bound args (globals w)) token workspace_id w2
      | Raises e => (Raises e, w2)
      | Diverges => (Diverges, w2)
      end /\
    globals w2 = bound args (globals w) /\
    events w2 = (events w ++ [Http rq])%list /\
    remote w2 = snd (serve rq (remote w)).
Proof.
  intros rq Hpat Hsession.
  destruct (main_provisions fuel args token w Hpat Hsession)
    as (w1 & Hmain & Hg & He & Hr).
  rewrite Hmain. unfold provision.
  unfold bind at 1. unfold logging at 1. unfold bind at 1.
  match goal with
  | |- context [create_fabric_workspace ?n ?c ?t ?w0] =>
      destruct (create_fabric_workspace_run n c t w0) as [w2 [Hrun (Hg2 & He2 & Hr2)]]
  end.
  rewrite Hrun.
  cbn [globals events remote map fold_left] in Hg2, He2, Hr2 |- *.
  rewrite Hg in Hg2, He2, Hr2 |- *. rewrite Hr in Hr2 |- *. rewrite He in He2.
  change (create_request (bound args (globals w)) _ _ token) with rq in He2, Hr2 |- *.
  exists w2. split; [|split; [exact Hg2|split; [exact He2|exact Hr2]]].
  destruct (created (fst (serve rq (remote w)))) as [workspace_id|e|]; [|reflexivity..].
  destruct (negb (truthy workspace_id)).
  - unfold bind, logging, raise, logged. reflexivity.
  - reflexivity.
Qed.

(** X23.  With a PAT and a bearer token (the Fabric token of the command
    line, or else the access token the identity library returns), when the
    creation of the workspace fails in transport or is answered with a
    status other than 201 and 409, [main] raises the [ValueError] "Could not
    create Fabric workspace." after that one call, authorized by the bearer
    token: no admin grant, branch, connection or initialization is
    requested. *)
Theorem main_stops_when_not_created (fuel : nat) (args : Args) (token : json)
    (w : World Remote) :
  let rq := create_request (globals w) (arg_WORKSPACE_NAME args) (arg_CAPACITY_ID args)
              token in
  arg_GH_PAT_TOKEN args <> "" ->
  session_token args token ->
  creates_nothing (fst (serve rq (remote w))) ->
  exists w',
    main fuel (inr args) w = (Raises (ValueError "Could not create Fabric workspace."), w') /\
    events w' = (events w ++ [Http rq])%list /\
    remote w' = snd (serve rq (remote w)).
Proof.
  intros rq Hpat Hsession Hnothing.
  destruct (main_creation fuel args token w Hpat Hsession)
    as (w2 & Hmain & _ & He & Hr).
  fold rq in Hmain, He, Hr. rewrite Hmain.
  assert (Hcreated : created (fst (serve rq (remote w))) = Returns JNull).
  { unfold created. destruct (fst (serve rq (remote w))) as [r|detail]; [|reflexivity].
    destruct Hnothing as [H201 H409].
    apply Z.eqb_neq in H201. apply Z.eqb_neq in H409. rewrite H409, H201. reflexivity. }
  rewrite Hcreated. cbn [truthy negb].
  eexists. split; [reflexivity|]. split; [exact He|exact Hr].
Qed.

(** X24.  With a PAT and a bearer token, when the creation of the workspace
    is answered 409, [main] raises the "already exists" [ValueError] of
    [create_fabric_workspace] as it is, after that one call: the conflict
    aborts the run. *)
Theorem main_stops_on_conflict (fuel : nat) (args : Args) (token : json)
    (w : World Remote) (r : response) :
  let rq := create_request (globals w) (arg_WORKSPACE_NAME args) (arg_CAPACITY_ID args)
              token in
  arg_GH_PAT_TOKEN args <> "" ->
  session_token args token ->
  fst (serve rq (remote w)) = Responds r ->
  status_code r = 409 ->
  exists w',
    main fuel (inr args) w =
      (Raises (ValueError
                 "Fabric workspace already exists. Please specify a new workspace as target."),
       w') /\
    events w' = (events w ++ [Http rq])%list /\
    remote w' = snd (serve rq (remote w)).
Proof.
  intros rq Hpat Hsession Hreply Hstatus.
  destruct (main_creation fuel args token w Hpat Hsession)
    as (w2 & Hmain & _ & He & Hr).
  fold rq in Hmain, He, Hr. rewrite Hmain, Hreply.
  unfold created. rewrite Hstatus. cbn [Z.eqb Pos.eqb].
  exists w2. split; [reflexivity|]. split; [exact He|exact Hr].
Qed.

(** X25.  With a PAT and a bearer token, once the workspace is created
    with an id, the run goes on to the branch whatever the admin grant is
    answered, a transport failure included.  If then the new branch is not
    reported and the base branch cannot be resolved, [main] raises the
    [ValueError] of the missing base branch after exactly four calls (the
    creation, the grant and the two lookups): nothing is connected or
    initialized. *)
Theorem main_stops_without_base_branch (fuel : nat) (args : Args) (token : json)
    (w : World Remote) (r : response) (members : list (string * json)) :
  let g := bound args (globals w) in
  let create := create_request (globals w) (arg_WORKSPACE_NAME args)
                  (arg_CAPACITY_ID args) token in
  let admin := admin_request (field members "id") (arg_DEVELOPER args) token in
  let lookup := lookup_request g (arg_GH_OWNER args) (arg_GH_REPO_NAME args)
                  (arg_GH_NEW_BRANCH args) (arg_GH_PAT_TOKEN args) in
  let base := lookup_request g (arg_GH_OWNER args) (arg_GH_REPO_NAME args)
                (Some (arg_GH_MAIN_BRANCH args)) (arg_GH_PAT_TOKEN args) in
  let granted := snd (serve admin (snd (serve create (remote w)))) in
  arg_GH_PAT_TOKEN args <> "" ->
  session_token args token ->
  fst (serve create (remote w)) = Responds r ->
  status_code r = 201 ->
  body r = Some (JObj members) ->
  truthy (field members "id") = true ->
  absent (fst (serve lookup granted)) ->
  refused (fst (serve base (snd (serve lookup granted)))) ->
  exists w',
    main fuel (inr args) w =
      (Raises (ValueError ("Could not find base branch '" ++ arg_GH_MAIN_BRANCH args
                           ++ "' in repo '" ++ arg_GH_OWNER args ++ "/"
                           ++ arg_GH_REPO_NAME args ++ "'.")), w') /\
    events w' = (events w ++ [Http create; Http admin; Http lookup; Http base])%list.
Proof.
  intros g create admin lookup base granted Hpat Hsession Hreply Hstatus Hbody Hid
    Habsent Hrefused.
  destruct (main_creation fuel args token w Hpat Hsession)
    as (w2 & Hmain & Hg2 & He2 & Hr2).
  fold create in Hmain, He2, Hr2. fold g in Hmain, Hg2.
  rewrite Hmain, Hreply. unfold created. rewrite Hstatus, Hbody. cbn [Z.eqb Pos.eqb].
  rewrite Hid. cbn [negb]. unfold configure.
  unfold bind at 1. unfold logging at 1. unfold bind at 1.
  match goal with
  | |- context [add_workspace_admins ?i ?d ?t ?w0] =>
      destruct (add_workspace_admins_run i d t w0) as [w3 [Hadmin (Hg3 & He3 & Hr3)]]
  end.
  rewrite Hadmin.
  cbn [globals events remote map fold_left] in Hg3, He3, Hr3.
  subst g. cbn [bound DEVELOPER] in Hg3, He3, Hr3.
  fold admin in He3, Hr3.
  rewrite Hg2 in Hg3. rewrite He2 in He3. rewrite Hr2 in Hr3. fold granted in Hr3.
  unfold bind at 1. unfold logging at 1. unfold bind at 1.
  cbn [bound GH_OWNER GH_REPO_NAME GH_MAIN_BRANCH GH_NEW_BRANCH GH_PAT_TOKEN].
  subst lookup base. rewrite <- Hg3, <- Hr3 in Habsent, Hrefused.
  match goal with
  | |- context [create_github_branch ?o ?n ?m ?b ?t ?w0] =>
      destruct (create_github_branch_unresolved o n m b t w0 Hpat Habsent Hrefused)
        as [w4 [Hbranch (_ & He4 & _)]]
  end.
  rewrite Hbranch.
  exists w4. split; [reflexivity|].
  rewrite He4. cbn [events map]. rewrite He3, Hg3, <- !app_assoc. reflexivity.
Qed.

(** ** The root folder *)

Lemma rstrip_replicate (c : ascii) (k : nat) : rstrip c (replicate k c) = "".
Proof.
  induction k as [|k IH]; [reflexivity|].
  cbn [replicate rstrip]. rewrite IH, Ascii.eqb_refl. reflexivity.
Qed.

(** X26.  The folder normalization designates the root (the empty
    directory name) exactly for a lone backslash and for the folders made
    of slashes only, the empty one included; and no folder is normalized to
    a name that ends in a slash. *)
Theorem directory_name_root (git_folder : string) :
  (directory_name git_folder = "" <->
   git_folder = "\" \/ exists k, git_folder = replicate k "/"%char) /\
  ends_with "/"%char (directory_name git_folder) = false.
Proof.
  unfold directory_name, truthy_str. cbn [existsb orb].
  destruct (String.eqb_spec git_folder "") as [->|Hempty]; cbn [negb andb].
  { split; [|reflexivity]. split; [|reflexivity].
    intros _. right. exists 0%nat. reflexivity. }
  destruct (String.eqb_spec git_folder "/") as [->|Hslash]; cbn [negb andb orb].
  { split; [|reflexivity]. split; [|reflexivity].
    intros _. right. exists 1%nat. reflexivity. }
  destruct (String.eqb_spec git_folder "\") as [->|Hback]; cbn [negb andb orb].
  { split; [|reflexivity]. split; [|reflexivity]. intros _. left. reflexivity. }
  split; [|apply rstrip_no_trailing].
  split.
  - intros Hstripped. right.
    destruct (rstrip_decompose "/"%char git_folder) as [k Hk].
    rewrite Hstripped in Hk. exists k. exact Hk.
  - intros [Hk | [k Hk]]; [contradiction|].
    rewrite Hk. apply rstrip_replicate.
Qed.

(** ** Listings that are not lists of objects *)

(** X27.  With a PAT, when the listing holds an entry that is not a JSON
    object before any connection it could reuse,
    [get_or_create_github_pat_connection] raises an [AttributeError] after
    the listing: it neither skips the entry nor creates a connection. *)
Theorem get_or_create_raises_on_malformed_entry (connection_name pat_token : string)
    (token : json) (w : World Remote) (r : response)
    (before : list (list (string * json))) (entry : json) (rest : list json) :
  let rq := list_request (globals w) token in
  pat_token <> "" ->
  fst (serve rq (remote w)) = Responds r ->
  listing r (map JObj before ++ entry :: rest)%list ->
  forallb (fun m => negb (usable connection_name m)) before = true ->
  (forall members, entry <> JObj members) ->
  exists w',
    get_or_create_github_pat_connection connection_name pat_token token w =
      (Raises (AttributeError "get"), w') /\
    after [rq] w w'.
Proof.
  intros rq Hpat Hreply Hlisting Hbefore Hshape.
  unfold get_or_create_github_pat_connection.
  rewrite (truthy_str_nonempty pat_token Hpat). cbn [negb].
  unfold bind at 1.
  rewrite (list_connections_listing token w r _ Hreply Hlisting).
  unfold bind at 1. unfold lift at 1. cbn [py_iter].
  unfold bind at 1.
  assert (Hfind : forall w0 : World Remote,
             find_connection connection_name (map JObj before ++ entry :: rest)%list w0
             = (Raises (AttributeError "get"), w0)).
  { clear Hlisting. induction before as [|m before IH]; intros w0;
      cbn [map app find_connection].
    - unfold bind, lift, py_get.
      destruct entry as [| | | | |members]; try reflexivity.
      exfalso. exact (Hshape members eq_refl).
    - cbn [forallb] in Hbefore. apply andb_true_iff in Hbefore as [Hm Hrest].
      apply negb_true_iff in Hm. unfold usable, field in Hm.
      unfold bind, lift, py_get.
      destruct (eq_str _ connection_name) eqn:Hname at 1.
      + rewrite Hname in Hm. cbn [andb] in Hm. rewrite Hm. apply IH. exact Hrest.
      + apply IH. exact Hrest. }
  rewrite Hfind.
  eexists. split; [reflexivity|]. apply (after_call rq).
Qed.

End Script.

(** * Concrete runs

    The statements above at particular inputs, on the scripted service. *)

(** The script Running, Running, Succeeded: three fetches, two sleeps of the
    retry interval between them, and the status is returned. *)
Lemma polling_running_running_succeeded :
  let script := map Responds [operation "Running"; operation "Running";
                              operation "Succeeded"] in
  let rq := status_request "https://status" [] in
  exists w' earlier,
    long_running_operation_polling (list reply) scripted 3%nat (Some "https://status")
      15%nat [] (start script) =
      (Returns (JStr "Succeeded"), w') /\
    events w' = [Http rq; Sleep 15; Http rq; Sleep 15; Http rq] /\
    fetches [Http rq; Sleep 15; Http rq; Sleep 15; Http rq] = 3%nat /\
    log w' =
      (earlier ++
       [mk_log INFO "The long running operation has been successfully completed." []])%list.
Proof.
  intros script rq.
  apply (polling_stops_at_first_terminal (list reply) scripted
           "https://status" 15%nat [] (start script)
           [operation "Running"; operation "Running"] (operation "Succeeded")
           [("status", JStr "Succeeded")] (JStr "Succeeded") 3%nat).
  - reflexivity.
  - repeat constructor; exists (JStr "Running"); split; reflexivity.
  - reflexivity.
  - reflexivity.
  - reflexivity.
  - simpl. lia.
Defined.

(** The same run by computation, and the script Running, Failed: two
    fetches, the error payload logged, [None] returned and nothing raised. *)
Example polling_scripts_computed :
  let rq := status_request "https://status" [] in
  let succeeded :=
    long_running_operation_polling (list reply) scripted 10%nat (Some "https://status") 15%nat []
      (start (map Responds [operation "Running"; operation "Running";
                            operation "Succeeded"])) in
  let failed :=
    long_running_operation_polling (list reply) scripted 10%nat (Some "https://status") 15%nat []
      (start [Responds (operation "Running");
              Responds (json_response 200
                          (JObj [("status", JStr "Failed");
                                 ("Error", JObj [("code", JStr "Conflict")])]))]) in
  fst succeeded = Returns (JStr "Succeeded") /\
  events (snd succeeded) = [Http rq; Sleep 15; Http rq; Sleep 15; Http rq] /\
  fst failed = Returns JNull /\
  events (snd failed) = [Http rq; Sleep 15; Http rq] /\
  last (log (snd failed)) (mk_log INFO "" []) =
    mk_log INFO "The long running operation failed. Error response: %s"
      [ADumps (JObj [("code", JStr "Conflict")])].
Proof. vm_compute. repeat split. Qed.

(** The script Running, Failed, at the statement about return values. *)
Lemma polling_running_failed :
  let script := [Responds (operation "Running"); Responds (operation "Failed")] in
  exists v : json,
    fst (long_running_operation_polling (list reply) scripted 2%nat
           (Some "https://status") 15%nat [] (start script)) = Returns v /\
    (eq_str (JStr "Failed") "Failed" = true -> v = JNull) /\
    (eq_str (JStr "Failed") "Failed" = false -> v = JStr "Failed") /\
    (v <> JNull -> eq_str (JStr "Failed") "Failed" = false /\ v = JStr "Failed").
Proof.
  intros script.
  apply (polling_returns_none_on_failed (list reply) scripted
           "https://status" 15%nat [] (start script)
           [operation "Running"] (operation "Failed")
           [("status", JStr "Failed")] (JStr "Failed") 2%nat).
  - reflexivity.
  - repeat constructor; exists (JStr "Running"); split; reflexivity.
  - reflexivity.
  - reflexivity.
  - reflexivity.
  - simpl. lia.
Defined.

(** A second creation of the same workspace: the first attempt is answered
    201, the second 409. *)
Lemma create_fabric_workspace_twice :
  let create :=
    create_fabric_workspace (list reply) scripted plain_json "feature-ws" "cap-1"
      (JStr "fabric-token") in
  let w1 := snd (create (start [Responds (json_response 201 (JObj [("id", JStr "ws-1")]));
                                 Responds (mk_response 409 "conflict" [] None)])) in
  let rq := create_request plain_json (globals w1) "feature-ws" "cap-1"
              (JStr "fabric-token") in
  exists w',
    create w1 =
      (Raises (ValueError
                 "Fabric workspace already exists. Please specify a new workspace as target."),
       w') /\
    events w' = (events w1 ++ [Http rq])%list /\
    remote w' = snd (scripted rq (remote w1)).
Proof.
  intros create w1 rq.
  apply (create_fabric_workspace_conflict (list reply) scripted plain_json
           "feature-ws" "cap-1" (JStr "fabric-token") w1
           (mk_response 409 "conflict" [] None)).
  - reflexivity.
  - reflexivity.
Defined.

(** A second creation of the same branch: the first invocation finds no
    branch, resolves the base and creates the reference; the second finds
    the branch. *)
Lemma create_github_branch_twice :
  let create :=
    create_github_branch (list reply) scripted "octo" "analytics" "main" (Some "feature")
      "ghp_example" in
  let w1 :=
    snd (create
           (start [Responds (mk_response 404 "Not Found" [] None);
                   Responds (json_response 200
                               (JObj [("object", JObj [("sha", JStr "abc123")])]));
                   Responds (json_response 201 (JObj []));
                   Responds (json_response 200 (JObj []))])) in
  let rq := lookup_request (globals w1) "octo" "analytics" (Some "feature")
              "ghp_example" in
  exists w',
    create w1 = (Returns tt, w') /\
    events w' = (events w1 ++ [Http rq])%list /\
    remote w' = snd (scripted rq (remote w1)).
Proof.
  intros create w1 rq.
  apply (create_github_branch_skips_existing (list reply) scripted
           "octo" "analytics" "main" (Some "feature") "ghp_example" w1
           (json_response 200 (JObj []))).
  - discriminate.
  - reflexivity.
  - reflexivity.
Defined.

(** C4 fails as stated, in two ways.  The branch exists and the lookup would
    report it, and with an empty PAT [create_github_branch] raises instead of
    returning, before it makes any call.  And with a PAT, when the lookup
    fails in transport, the branch counts as absent: the creation of the
    reference is requested, the repository refuses it with 422 because the
    branch exists, and the refusal is raised. *)
Lemma create_github_branch_empty_token :
  let w := start [Responds (json_response 200 (JObj []))] in
  let rq := lookup_request (globals w) "octo" "analytics" (Some "feature") "" in
  let unreachable :=
    start [Fails "connection reset";
           Responds (json_response 200 (JObj [("object", JObj [("sha", JStr "abc123")])]));
           Responds (mk_response 422 "Reference already exists" [] None)] in
  let creation :=
    mk_request POST (refs_url "https://api.github.com" "octo" "analytics")
      (_github_headers "ghp_example")
      (Some (JObj [("ref", JStr "refs/heads/feature"); ("sha", JStr "abc123")])) in
  let retried :=
    create_github_branch (list reply) scripted "octo" "analytics" "main" (Some "feature")
      "ghp_example" unreachable in
  (exists r, fst (scripted rq (remote w)) = Responds r /\ status_code r = 200) /\
  create_github_branch (list reply) scripted "octo" "analytics" "main" (Some "feature") "" w
    = (Raises (ValueError "GitHub PAT token is required to create branches."), w) /\
  fst retried = Raises (HTTPError 422) /\
  In (Http creation) (events (snd retried)).
Proof.
  split; [|split; [|split]].
  - eexists. split; reflexivity.
  - reflexivity.
  - reflexivity.
  - vm_compute. tauto.
Qed.

(** The two invocations by computation: one reference is created, by the
    first. *)
Example create_github_branch_twice_computed :
  let create :=
    create_github_branch (list reply) scripted "octo" "analytics" "main" (Some "feature")
      "ghp_example" in
  let lookup := lookup_request sample_globals "octo" "analytics" (Some "feature")
                  "ghp_example" in
  let base := lookup_request sample_globals "octo" "analytics" (Some "main")
                "ghp_example" in
  let creation :=
    mk_request POST (refs_url "https://api.github.com" "octo" "analytics")
      (_github_headers "ghp_example")
      (Some (JObj [("ref", JStr "refs/heads/feature"); ("sha", JStr "abc123")])) in
  let w1 :=
    snd (create
           (start [Responds (mk_response 404 "Not Found" [] None);
                   Responds (json_response 200
                               (JObj [("object", JObj [("sha", JStr "abc123")])]));
                   Responds (json_response 201 (JObj []));
                   Responds (json_response 200 (JObj []))])) in
  events w1 = [Http lookup; Http base; Http creation] /\
  fst (create w1) = Returns tt /\
  events (snd (create w1)) = [Http lookup; Http base; Http creation; Http lookup].
Proof. vm_compute. repeat split. Qed.

(** A listing with another connection, a connection of the requested name
    without id, and two of the requested name with ids: the first of
    these is reused. *)
Lemma get_or_create_reuses_listed :
  let name := "GitHub PAT - octo/analytics" in
  let other := [("displayName", JStr "Warehouse"); ("id", JStr "c0")] in
  let idless := [("displayName", JStr name)] in
  let first := [("displayName", JStr name); ("id", JStr "c1")] in
  let second := JObj [("displayName", JStr name); ("id", JStr "c2")] in
  let listed := json_response 200 (JObj [("value", JArr [JObj other; JObj idless;
                                                         JObj first; second])]) in
  let w := start [Responds listed] in
  let rq := list_request plain_json (globals w) (JStr "fabric-token") in
  exists w',
    get_or_create_github_pat_connection (list reply) scripted plain_json name
      "ghp_example" (JStr "fabric-token") w = (Returns (JStr "c1"), w') /\
    events w' = (events w ++ [Http rq])%list /\
    remote w' = snd (scripted rq (remote w)).
Proof.
  intros name other idless first second listed w rq.
  apply (get_or_create_reuses_first_usable (list reply) scripted plain_json name
           "ghp_example" (JStr "fabric-token") w listed [other; idless] first [second]).
  - discriminate.
  - reflexivity.
  - split; [reflexivity|]. right. eexists. split; reflexivity.
  - reflexivity.
  - reflexivity.
Defined.

(** C6 fails as stated: the listing holds an entry with the requested
    display name, and yet a connection is created and it is the new id that
    is returned, because the entry has no id. *)
Lemma get_or_create_creates_despite_match :
  let name := "GitHub PAT - octo/analytics" in
  let entry := JObj [("displayName", JStr name)] in
  let w := start [Responds (json_response 200 (JArr [entry]));
                  Responds (json_response 201 (JObj [("id", JStr "fresh")]))] in
  let run :=
    get_or_create_github_pat_connection (list reply) scripted plain_json name
      "ghp_example" (JStr "fabric-token") w in
  py_get entry "displayName" = Returns (JStr name) /\
  py_get entry "id" = Returns JNull /\
  fst run = Returns (JStr "fresh") /\
  events (snd run) =
    [Http (list_request plain_json sample_globals (JStr "fabric-token"));
     Http (connection_request plain_json sample_globals name "ghp_example"
             (JStr "fabric-token"))].
Proof. vm_compute. repeat split. Qed.

(** Two calls of the resolver that are given the same listing return the
    same id and create nothing. *)
Example get_or_create_twice_computed :
  let name := "GitHub PAT - octo/analytics" in
  let listed :=
    Responds (json_response 200 (JArr [JObj [("displayName", JStr name);
                                             ("id", JStr "c1")]])) in
  let resolve :=
    get_or_create_github_pat_connection (list reply) scripted plain_json name
      "ghp_example" (JStr "fabric-token") in
  let rq := list_request plain_json sample_globals (JStr "fabric-token") in
  let first := resolve (start [listed; listed]) in
  let second := resolve (snd first) in
  fst first = Returns (JStr "c1") /\
  fst second = Returns (JStr "c1") /\
  events (snd second) = [Http rq; Http rq].
Proof. vm_compute. repeat split. Qed.

(** A bare listing and a wrapped listing of the same two connections. *)
Lemma list_connections_both_shapes :
  let items := [JObj [("id", JStr "c1")]; JObj [("id", JStr "c2")]] in
  let wrapper := [("value", JArr items); ("continuationToken", JNull)] in
  fst (list_connections (list reply) scripted plain_json (JStr "fabric-token")
         (start [Responds (json_response 200 (JArr items))])) = Returns (JArr items) /\
  fst (list_connections (list reply) scripted plain_json (JStr "fabric-token")
         (start [Responds (json_response 200 (JObj wrapper))])) = Returns (JArr items).
Proof.
  intros items wrapper.
  apply (list_connections_shapes (list reply) scripted plain_json (JStr "fabric-token")
           (start [Responds (json_response 200 (JArr items))])
           (start [Responds (json_response 200 (JObj wrapper))])
           (json_response 200 (JArr items)) (json_response 200 (JObj wrapper))
           items wrapper); reflexivity.
Defined.

(** A run whose command line carries an empty PAT: [main] raises before
    any call, whatever the services would answer. *)
Lemma main_without_pat :
  let w := start [Responds (json_response 201 (JObj [("id", JStr "ws-1")]))] in
  exists (e : exn) (w' : World (list reply)),
    main (list reply) scripted no_identity plain_exn plain_json 5%nat
      (inr (args_with "fabric-token" "")) w = (Raises e, w') /\
    events w' = events w /\
    remote w' = remote w.
Proof.
  intros w.
  apply (main_aborts_without_credentials (list reply) scripted no_identity plain_exn
           plain_json 5%nat (inr (args_with "fabric-token" "")) w).
  apply no_pat. reflexivity.
Defined.

(** The three ways to be without credentials, by computation: the command
    line misses a required argument, the PAT is empty, no token is issued. *)
Example main_without_credentials_computed :
  let w := start [Responds (json_response 201 (JObj [("id", JStr "ws-1")]))] in
  let run := main (list reply) scripted no_identity plain_exn plain_json 5%nat in
  fst (run (inl (SystemExit 2)) w) = Raises (SystemExit 2) /\
  events (snd (run (inl (SystemExit 2)) w)) = [] /\
  fst (run (inr (args_with "fabric-token" "")) w) =
    Raises (ValueError "GitHub PAT token was not provided. Set --GH_PAT_TOKEN.") /\
  events (snd (run (inr (args_with "fabric-token" "")) w)) = [] /\
  fst (run (inr (args_with "" "ghp_example")) w) =
    Raises (ValueError
              "Could not generate authentication token. Please review the debug logs.") /\
  events (snd (run (inr (args_with "" "ghp_example")) w)) = [].
Proof. vm_compute. repeat split. Qed.

(** A connect reply 202 with a connection to reuse:
    [connect_branch_to_workspace] returns normally. *)
Lemma connect_returns_on_202 :
  let name := "GitHub PAT - octo/analytics" in
  let connection := [("displayName", JStr name); ("id", JStr "c1")] in
  let listed := json_response 200 (JArr [JObj connection]) in
  let w := start [Responds listed; Responds (mk_response 202 "Accepted" [] None)] in
  let list_rq := list_request plain_json (globals w) (JStr "fabric-token") in
  let rq := connect_request plain_json (globals w) (JStr "ws-1") "octo" "analytics"
              (Some "feature") "fabric/" (JStr "c1") (JStr "fabric-token") in
  exists w',
    connect_branch_to_workspace (list reply) scripted plain_json (JStr "ws-1")
      "octo" "analytics" (Some "feature") "fabric/" (JStr "fabric-token") w
      = (Returns tt, w') /\
    events w' = (events w ++ [Http list_rq; Http rq])%list.
Proof.
  intros name connection listed w list_rq rq.
  apply (connect_outcome_follows_raise_for_status (list reply) scripted plain_json
           (JStr "ws-1") "octo" "analytics" (Some "feature") "fabric/"
           (JStr "fabric-token") w listed [] connection []
           (mk_response 202 "Accepted" [] None)).
  - discriminate.
  - reflexivity.
  - split; [reflexivity|]. left. reflexivity.
  - reflexivity.
  - reflexivity.
  - reflexivity.
Defined.

(** The connect replies 202, 304 and 404 by computation: the first two are
    logged as failed and the call returns all the same, its last record
    announcing the connection; only the third raises. *)
Example connect_statuses_computed :
  let name := "GitHub PAT - octo/analytics" in
  let listed :=
    Responds (json_response 200 (JArr [JObj [("displayName", JStr name);
                                             ("id", JStr "c1")]])) in
  let connect (status : Z) :=
    connect_branch_to_workspace (list reply) scripted plain_json (JStr "ws-1")
      "octo" "analytics" (Some "feature") "fabric/" (JStr "fabric-token")
      (start [listed; Responds (mk_response status "reply" [] None)]) in
  let failed (status : Z) :=
    mk_log ERROR "Git connect failed: %s - %s" [AInt status; AStr "reply"] in
  let connected := mk_log INFO "Workspace connected to GitHub branch" [] in
  fst (connect 202) = Returns tt /\
  In (failed 202) (log (snd (connect 202))) /\
  last (log (snd (connect 202))) (failed 0) = connected /\
  fst (connect 304) = Returns tt /\
  In (failed 304) (log (snd (connect 304))) /\
  last (log (snd (connect 304))) (failed 0) = connected /\
  fst (connect 200) = Returns tt /\
  fst (connect 404) = Raises (HTTPError 404).
Proof. vm_compute. tauto. Qed.

(** The root marker and a folder with two trailing slashes. *)
Lemma directory_name_root_and_folder :
  directory_name "/" = "" /\
  (exists k, "docs/fabric//" = directory_name "docs/fabric//" ++ replicate k "/"%char) /\
  ends_with "/"%char (directory_name "docs/fabric//") = false.
Proof.
  split.
  - apply (proj1 (directory_name_normalizes "/")). simpl. tauto.
  - apply (proj1 (proj2 (directory_name_normalizes "docs/fabric//"))).
    intros [H|[H|[H|[]]]]; discriminate H.
Defined.

(** The folders of the specification, and what is not stripped: a
    backslash at the end stays. *)
Example directory_name_computed :
  directory_name "/" = "" /\ directory_name "\" = "" /\ directory_name "" = "" /\
  directory_name "a/b/" = "a/b" /\ directory_name "a/b" = "a/b" /\
  directory_name "a//" = "a" /\ directory_name "//" = "" /\
  directory_name "a\" = "a\".
Proof. vm_compute. repeat split. Qed.

(** A lookup that fails in transport, one answered 404 and one answered 200. *)
Example branch_exists_computed :
  let exists_on (answer : reply) :=
    branch_exists (list reply) scripted "octo" "analytics" (Some "feature") "ghp_example"
      (start [answer]) in
  fst (exists_on (Fails "connection reset")) = Returns false /\
  fst (exists_on (Responds (mk_response 404 "Not Found" [] None))) = Returns false /\
  fst (exists_on (Responds (json_response 200 (JObj [])))) = Returns true.
Proof. vm_compute. repeat split. Qed.

(** A whole run: the workspace is created, the developer added, the branch
    created, a connection created, the workspace connected, and the update
    from git polled until it succeeds. *)
Example main_end_to_end :
  let script :=
    [Responds (json_response 201 (JObj [("id", JStr "ws-1")]));
     Responds (json_response 200 (JObj []));
     Responds (mk_response 404 "Not Found" [] None);
     Responds (json_response 200 (JObj [("object", JObj [("sha", JStr "abc123")])]));
     Responds (json_response 201 (JObj []));
     Responds (json_response 200 (JObj [("value", JArr [])]));
     Responds (json_response 201 (JObj [("id", JStr "c1")]));
     Responds (json_response 200 (JObj []));
     Responds (json_response 200 (JObj [("remoteCommitHash", JStr "abc123");
                                        ("workspaceHead", JNull)]));
     Responds (mk_response 202 "" [("location", "https://status")] None);
     Responds (operation "Running");
     Responds (operation "Succeeded")] in
  let run :=
    main (list reply) scripted no_identity plain_exn plain_json 5%nat
      (inr (args_with "fabric-token" "ghp_example"))
      (mk_world initial_globals script [] []) in
  fst run = Returns tt /\
  remote (snd run) = [] /\
  fetches (events (snd run)) = 12%nat /\
  globals (snd run) = sample_globals /\
  last (log (snd run)) (mk_log INFO "" []) =
    mk_log INFO "The long running operation has been successfully completed." [].
Proof. vm_compute. repeat split. Qed.

(** * Concrete runs of the further properties *)

(** A creation answered 500. *)
Lemma create_fabric_workspace_on_500 :
  let w := start [Responds (mk_response 500 "Internal Server Error" [] None)] in
  let rq := create_request plain_json (globals w) "feature-ws" "cap-1"
              (JStr "fabric-token") in
  exists w',
    create_fabric_workspace (list reply) scripted plain_json "feature-ws" "cap-1"
      (JStr "fabric-token") w = (Returns JNull, w') /\
    events w' = (events w ++ [Http rq])%list /\
    remote w' = snd (scripted rq (remote w)).
Proof.
  intros w rq.
  apply (create_fabric_workspace_not_created (list reply) scripted plain_json
           "feature-ws" "cap-1" (JStr "fabric-token") w).
  cbn. split; discriminate.
Defined.

(** A creation answered 201 with an id. *)
Lemma create_fabric_workspace_on_201 :
  let r := json_response 201 (JObj [("id", JStr "ws-1")]) in
  let w := start [Responds r] in
  let rq := create_request plain_json (globals w) "feature-ws" "cap-1"
              (JStr "fabric-token") in
  exists w',
    create_fabric_workspace (list reply) scripted plain_json "feature-ws" "cap-1"
      (JStr "fabric-token") w = (Returns (JStr "ws-1"), w') /\
    events w' = (events w ++ [Http rq])%list.
Proof.
  intros r w rq.
  apply (create_fabric_workspace_created (list reply) scripted plain_json
           "feature-ws" "cap-1" (JStr "fabric-token") w r); reflexivity.
Defined.

(** A lookup of the base branch that times out. *)
Lemma get_github_branch_sha_on_timeout :
  let w := start [Fails "timed out"] in
  let rq := lookup_request (globals w) "octo" "analytics" (Some "main") "ghp_example" in
  exists w',
    get_github_branch_sha (list reply) scripted "octo" "analytics" "main" "ghp_example" w
      = (Returns JNull, w') /\
    after (list reply) scripted [rq] w w'.
Proof.
  intros w rq.
  apply (get_github_branch_sha_none_when_refused (list reply) scripted
           "octo" "analytics" "main" "ghp_example" w).
  exact I.
Defined.

(** A lookup answered 200 with an object that has no "object". *)
Lemma get_github_branch_sha_on_unexpected_body :
  let r := json_response 200 (JObj [("message", JStr "moved")]) in
  let w := start [Responds r] in
  let rq := lookup_request (globals w) "octo" "analytics" (Some "main") "ghp_example" in
  exists w',
    get_github_branch_sha (list reply) scripted "octo" "analytics" "main" "ghp_example" w
      = (Raises (KeyError "object"), w') /\
    after (list reply) scripted [rq] w w'.
Proof.
  intros r w rq.
  apply (get_github_branch_sha_key_error (list reply) scripted
           "octo" "analytics" "main" "ghp_example" w r [("message", JStr "moved")]);
    reflexivity.
Defined.

(** Neither the new branch nor the base branch is found. *)
Lemma create_github_branch_on_missing_base :
  let not_found := Responds (mk_response 404 "Not Found" [] None) in
  let w := start [not_found; not_found] in
  let lookup := lookup_request (globals w) "octo" "analytics" (Some "feature")
                  "ghp_example" in
  let base := lookup_request (globals w) "octo" "analytics" (Some "main")
                "ghp_example" in
  exists w',
    create_github_branch (list reply) scripted "octo" "analytics" "main" (Some "feature")
      "ghp_example" w =
      (Raises (ValueError "Could not find base branch 'main' in repo 'octo/analytics'."),
       w') /\
    after (list reply) scripted [lookup; base] w w'.
Proof.
  intros not_found w lookup base.
  apply (create_github_branch_base_not_found (list reply) scripted
           "octo" "analytics" "main" (Some "feature") "ghp_example" w).
  - discriminate.
  - cbn. discriminate.
  - reflexivity.
Defined.

(** The new branch is not found, the base branch is, the reference is
    created. *)
Lemma create_github_branch_on_new_branch :
  let found := [("object", JObj [("sha", JStr "abc123")])] in
  let w := start [Responds (mk_response 404 "Not Found" [] None);
                  Responds (json_response 200 (JObj found));
                  Responds (json_response 201 (JObj []))] in
  let lookup := lookup_request (globals w) "octo" "analytics" (Some "feature")
                  "ghp_example" in
  let base := lookup_request (globals w) "octo" "analytics" (Some "main")
                "ghp_example" in
  let creation := creation_request (globals w) "octo" "analytics" (Some "feature")
                    (JStr "abc123") "ghp_example" in
  exists w',
    create_github_branch (list reply) scripted "octo" "analytics" "main" (Some "feature")
      "ghp_example" w = (Returns tt, w') /\
    after (list reply) scripted [lookup; base; creation] w w'.
Proof.
  intros found w lookup base creation.
  apply (create_github_branch_creates (list reply) scripted
           "octo" "analytics" "main" (Some "feature") "ghp_example" w
           (json_response 200 (JObj found)) found [("sha", JStr "abc123")]
           (JStr "abc123") (Responds (json_response 201 (JObj [])))).
  - discriminate.
  - cbn. discriminate.
  - reflexivity.
  - reflexivity.
  - reflexivity.
  - reflexivity.
  - reflexivity.
  - reflexivity.
  - reflexivity.
Defined.

(** An empty listing and a creation answered 201. *)
Lemma get_or_create_on_empty_listing :
  let name := "GitHub PAT - octo/analytics" in
  let made_connection := json_response 201 (JObj [("id", JStr "c9")]) in
  let w := start [Responds (json_response 200 (JArr [])); Responds made_connection] in
  let list_rq := list_request plain_json (globals w) (JStr "fabric-token") in
  let rq := connection_request plain_json (globals w) name "ghp_example"
              (JStr "fabric-token") in
  exists w',
    get_or_create_github_pat_connection (list reply) scripted plain_json name
      "ghp_example" (JStr "fabric-token") w = (Returns (JStr "c9"), w') /\
    after (list reply) scripted [list_rq; rq] w w'.
Proof.
  intros name made_connection w list_rq rq.
  apply (get_or_create_creates (list reply) scripted plain_json name "ghp_example"
           (JStr "fabric-token") w made_connection [("id", JStr "c9")]).
  - discriminate.
  - right. exists (json_response 200 (JArr [])), [].
    split; [reflexivity|]. split; [|reflexivity].
    split; [reflexivity|]. left. reflexivity.
  - reflexivity.
  - reflexivity.
  - reflexivity.
Defined.

(** A listing that fails and a creation answered 403. *)
Lemma get_or_create_on_failures :
  let name := "GitHub PAT - octo/analytics" in
  let w := start [Fails "connection reset";
                  Responds (mk_response 403 "Forbidden" [] None)] in
  let list_rq := list_request plain_json (globals w) (JStr "fabric-token") in
  let rq := connection_request plain_json (globals w) name "ghp_example"
              (JStr "fabric-token") in
  exists w',
    get_or_create_github_pat_connection (list reply) scripted plain_json name
      "ghp_example" (JStr "fabric-token") w = (Returns JNull, w') /\
    after (list reply) scripted [list_rq; rq] w w'.
Proof.
  intros name w list_rq rq.
  apply (get_or_create_not_created (list reply) scripted plain_json name "ghp_example"
           (JStr "fabric-token") w).
  - discriminate.
  - left. exact I.
  - cbn. discriminate.
Defined.

(** Nothing to reuse and a creation answered 500: no git-connect call. *)
Lemma connect_on_failed_creation :
  let name := "GitHub PAT - octo/analytics" in
  let w := start [Responds (json_response 200 (JArr []));
                  Responds (mk_response 500 "Internal Server Error" [] None)] in
  let list_rq := list_request plain_json (globals w) (JStr "fabric-token") in
  let rq := connection_request plain_json (globals w) name "ghp_example"
              (JStr "fabric-token") in
  exists w',
    connect_branch_to_workspace (list reply) scripted plain_json (JStr "ws-1")
      "octo" "analytics" (Some "feature") "fabric/" (JStr "fabric-token") w =
      (Raises (ValueError "Could not obtain/create GitHub credentials connection."), w') /\
    after (list reply) scripted [list_rq; rq] w w'.
Proof.
  intros name w list_rq rq.
  apply (connect_without_connection (list reply) scripted plain_json (JStr "ws-1")
           "octo" "analytics" (Some "feature") "fabric/" (JStr "fabric-token") w).
  - discriminate.
  - right. exists (json_response 200 (JArr [])), [].
    split; [reflexivity|]. split; [|reflexivity].
    split; [reflexivity|]. left. reflexivity.
  - cbn. discriminate.
Defined.

(** The globals as the module starts, with an empty PAT. *)
Lemma connect_on_empty_pat :
  let w := mk_world initial_globals
             [Responds (json_response 200 (JArr []))] [] [] in
  exists w',
    connect_branch_to_workspace (list reply) scripted plain_json (JStr "ws-1")
      "octo" "analytics" (Some "feature") "fabric/" (JStr "fabric-token") w =
      (Raises (ValueError "Could not obtain/create GitHub credentials connection."), w') /\
    after (list reply) scripted [] w w'.
Proof.
  intros w.
  apply (connect_without_pat (list reply) scripted plain_json (JStr "ws-1")
           "octo" "analytics" (Some "feature") "fabric/" (JStr "fabric-token") w).
  reflexivity.
Defined.

(** A connection to reuse and a git-connect call that is reset. *)
Lemma connect_on_reset :
  let name := "GitHub PAT - octo/analytics" in
  let connection := [("displayName", JStr name); ("id", JStr "c1")] in
  let listed := json_response 200 (JArr [JObj connection]) in
  let w := start [Responds listed; Fails "connection reset"] in
  let list_rq := list_request plain_json (globals w) (JStr "fabric-token") in
  let rq := connect_request plain_json (globals w) (JStr "ws-1") "octo" "analytics"
              (Some "feature") "fabric/" (JStr "c1") (JStr "fabric-token") in
  exists (w' : World (list reply)) (earlier : list log_record),
    connect_branch_to_workspace (list reply) scripted plain_json (JStr "ws-1")
      "octo" "analytics" (Some "feature") "fabric/" (JStr "fabric-token") w
      = (Raises (ConnectionError "connection reset"), w') /\
    after (list reply) scripted [list_rq; rq] w w' /\
    log w' = (earlier ++ [mk_log ERROR "Error connecting branch to workspace: %s"
                            [AExn (ConnectionError "connection reset")]])%list.
Proof.
  intros name connection listed w list_rq rq.
  apply (connect_transport_failure (list reply) scripted plain_json (JStr "ws-1")
           "octo" "analytics" (Some "feature") "fabric/" (JStr "fabric-token") w
           listed [] connection [] "connection reset").
  - discriminate.
  - reflexivity.
  - split; [reflexivity|]. left. reflexivity.
  - reflexivity.
  - reflexivity.
  - reflexivity.
Defined.

(** An operation that ends Cancelled: the status is returned, and it is
    neither pending nor Failed. *)
Lemma polling_on_cancelled :
  let run :=
    long_running_operation_polling (list reply) scripted 3%nat (Some "https://status")
      15%nat [] (start [Responds (operation "Running");
                        Responds (operation "Cancelled")]) in
  run = (Returns (JStr "Cancelled"), snd run) /\
  pending (JStr "Cancelled") = false /\
  eq_str (JStr "Cancelled") "Failed" = false.
Proof.
  intros run.
  assert (Hrun : run = (Returns (JStr "Cancelled"), snd run)) by reflexivity.
  split; [exact Hrun|].
  exact (polling_returns_terminal (list reply) scripted 3%nat (Some "https://status")
           15%nat [] _ (snd run) (JStr "Cancelled") Hrun).
Defined.

(** Three pending statuses in three rounds. *)
Lemma polling_on_three_pending :
  let waiting := [operation "Running"; operation "NotStarted"; operation "Running"] in
  let w := start (map Responds waiting) in
  let rq := status_request "https://status" [] in
  exists w',
    long_running_operation_polling (list reply) scripted 3%nat (Some "https://status")
      15%nat [] w = (Diverges, w') /\
    events w' = (events w ++ rounds rq 15 3)%list.
Proof.
  intros waiting w rq.
  apply (polling_is_unbounded (list reply) scripted "https://status" 15%nat [] w waiting).
  - reflexivity.
  - repeat constructor; eexists; split; reflexivity.
Defined.

(** A pending status, then a fetch that times out. *)
Lemma polling_on_timeout :
  let w := start [Responds (operation "Running"); Fails "timed out"] in
  let rq := status_request "https://status" [] in
  exists (w' : World (list reply)) (earlier : list log_record),
    long_running_operation_polling (list reply) scripted 5%nat (Some "https://status")
      15%nat [] w = (Returns JNull, w') /\
    events w' = (events w ++ polls rq 15 2)%list /\
    log w' = (earlier ++ [mk_log ERROR "The long running operation failed with error: %s"
                            [AExn (ConnectionError "timed out")]])%list.
Proof.
  intros w rq.
  apply (polling_gives_up_on_broken_fetch (list reply) scripted "https://status" 15%nat
           [] w [operation "Running"] (ConnectionError "timed out") 5%nat).
  - reflexivity.
  - repeat constructor; eexists; split; reflexivity.
  - reflexivity.
  - simpl. lia.
Defined.

(** An initialization answered 202. *)
Lemma initialize_on_202 :
  let w := start [Responds (mk_response 202 "" [] None)] in
  let rq := initialize_request plain_json (globals w) (JStr "ws-1")
              (JStr "fabric-token") in
  exists w',
    initialize_workspace_from_git (list reply) scripted plain_json 5%nat (JStr "ws-1")
      (JStr "fabric-token") w = (Returns tt, w') /\
    after (list reply) scripted [rq] w w'.
Proof.
  intros w rq.
  apply (initialize_stops_unless_200 (list reply) scripted plain_json 5%nat (JStr "ws-1")
           (JStr "fabric-token") w).
  cbn. discriminate.
Defined.

(** An initialization answered 200 with a list. *)
Lemma initialize_on_list_body :
  let r := json_response 200 (JArr []) in
  let w := start [Responds r] in
  let rq := initialize_request plain_json (globals w) (JStr "ws-1")
              (JStr "fabric-token") in
  exists w',
    initialize_workspace_from_git (list reply) scripted plain_json 5%nat (JStr "ws-1")
      (JStr "fabric-token") w = (Raises (AttributeError "get"), w') /\
    after (list reply) scripted [rq] w w'.
Proof.
  intros r w rq.
  apply (initialize_raises_on_malformed_status (list reply) scripted plain_json 5%nat
           (JStr "ws-1") (JStr "fabric-token") w r (JArr [])).
  - reflexivity.
  - reflexivity.
  - reflexivity.
  - discriminate.
Defined.

(** An initialization answered 200 and an update answered 200. *)
Lemma initialize_on_synchronous_update :
  let git_status := [("remoteCommitHash", JStr "abc123"); ("workspaceHead", JNull)] in
  let r := json_response 200 (JObj git_status) in
  let w := start [Responds r; Responds (json_response 200 (JObj []))] in
  let rq := initialize_request plain_json (globals w) (JStr "ws-1")
              (JStr "fabric-token") in
  let update := update_request plain_json (globals w) (JStr "ws-1")
                  (JStr "fabric-token") git_status in
  exists w',
    initialize_workspace_from_git (list reply) scripted plain_json 5%nat (JStr "ws-1")
      (JStr "fabric-token") w = (Returns tt, w') /\
    after (list reply) scripted [rq; update] w w'.
Proof.
  intros git_status r w rq update.
  apply (initialize_updates_once (list reply) scripted plain_json 5%nat (JStr "ws-1")
           (JStr "fabric-token") w r git_status).
  - reflexivity.
  - reflexivity.
  - reflexivity.
  - cbn. discriminate.
Defined.

(** An update accepted with 202, polled at its location until the
    operation has failed: the initialization returns all the same. *)
Lemma initialize_on_failed_synchronization :
  let git_status := [("remoteCommitHash", JStr "abc123"); ("workspaceHead", JNull)] in
  let r := json_response 200 (JObj git_status) in
  let r2 := mk_response 202 "" [("location", "https://status")] None in
  let w := start [Responds r; Responds r2; Responds (operation "Running");
                  Responds (operation "Failed")] in
  let rq := initialize_request plain_json (globals w) (JStr "ws-1")
              (JStr "fabric-token") in
  let update := update_request plain_json (globals w) (JStr "ws-1")
                  (JStr "fabric-token") git_status in
  let fetch := status_request "https://status"
                 [("Authorization", "Bearer fabric-token")] in
  exists w',
    initialize_workspace_from_git (list reply) scripted plain_json 5%nat (JStr "ws-1")
      (JStr "fabric-token") w = (Returns tt, w') /\
    events w' = (events w ++ [Http rq; Http update; Sleep 15] ++ polls fetch 15 2)%list.
Proof.
  intros git_status r r2 w rq update fetch.
  apply (initialize_polls_after_202 (list reply) scripted plain_json 5%nat (JStr "ws-1")
           (JStr "fabric-token") w r r2 git_status "https://status"
           [operation "Running"] (operation "Failed")
           [("status", JStr "Failed")] (JStr "Failed")).
  - reflexivity.
  - reflexivity.
  - reflexivity.
  - reflexivity.
  - reflexivity.
  - reflexivity.
  - reflexivity.
  - repeat constructor; eexists; split; reflexivity.
  - reflexivity.
  - reflexivity.
  - reflexivity.
  - simpl. lia.
Defined.

(** An update accepted with 202 that names no location. *)
Lemma initialize_on_missing_location :
  let git_status := [("remoteCommitHash", JStr "abc123"); ("workspaceHead", JNull)] in
  let r := json_response 200 (JObj git_status) in
  let r2 := mk_response 202 "" [] None in
  let w := start [Responds r; Responds r2; Responds (operation "Succeeded")] in
  let rq := initialize_request plain_json (globals w) (JStr "ws-1")
              (JStr "fabric-token") in
  let update := update_request plain_json (globals w) (JStr "ws-1")
                  (JStr "fabric-token") git_status in
  exists w',
    initialize_workspace_from_git (list reply) scripted plain_json 5%nat (JStr "ws-1")
      (JStr "fabric-token") w = (Returns tt, w') /\
    events w' = (events w ++ [Http rq; Http update; Sleep 15])%list.
Proof.
  intros git_status r r2 w rq update.
  apply (initialize_without_location (list reply) scripted plain_json 5%nat (JStr "ws-1")
           (JStr "fabric-token") w r r2 git_status).
  - reflexivity.
  - reflexivity.
  - reflexivity.
  - reflexivity.
  - reflexivity.
  - reflexivity.
  - lia.
Defined.

(** A run whose creation of the workspace cannot reach the service. *)
Lemma main_on_unreachable_service :
  let args := args_with "fabric-token" "ghp_example" in
  let w := mk_world initial_globals [Fails "name resolution failed"] [] [] in
  let rq := create_request plain_json (globals w) "feature-ws" "cap-1"
              (JStr "fabric-token") in
  exists w',
    main (list reply) scripted no_identity plain_exn plain_json 5%nat (inr args) w =
      (Raises (ValueError "Could not create Fabric workspace."), w') /\
    events w' = (events w ++ [Http rq])%list /\
    remote w' = snd (scripted rq (remote w)).
Proof.
  intros args w rq.
  apply (main_stops_when_not_created (list reply) scripted no_identity plain_exn
           plain_json 5%nat args (JStr "fabric-token") w).
  - discriminate.
  - left. split; [discriminate|reflexivity].
  - exact I.
Defined.

(** A run whose workspace exists already. *)
Lemma main_on_existing_workspace :
  let args := args_with "fabric-token" "ghp_example" in
  let r := mk_response 409 "Conflict" [] None in
  let w := mk_world initial_globals [Responds r] [] [] in
  let rq := create_request plain_json (globals w) "feature-ws" "cap-1"
              (JStr "fabric-token") in
  exists w',
    main (list reply) scripted no_identity plain_exn plain_json 5%nat (inr args) w =
      (Raises (ValueError
                 "Fabric workspace already exists. Please specify a new workspace as target."),
       w') /\
    events w' = (events w ++ [Http rq])%list /\
    remote w' = snd (scripted rq (remote w)).
Proof.
  intros args r w rq.
  apply (main_stops_on_conflict (list reply) scripted no_identity plain_exn
           plain_json 5%nat args (JStr "fabric-token") w r).
  - discriminate.
  - left. split; [discriminate|reflexivity].
  - reflexivity.
  - reflexivity.
Defined.

(** A run whose admin grant fails in transport and whose base branch is
    missing. *)
Lemma main_on_missing_base_branch :
  let args := args_with "fabric-token" "ghp_example" in
  let members := [("id", JStr "ws-1")] in
  let r := json_response 201 (JObj members) in
  let not_found := Responds (mk_response 404 "Not Found" [] None) in
  let w := mk_world initial_globals
             [Responds r; Fails "connection reset"; not_found; not_found] [] [] in
  let g := bound args (globals w) in
  let create := create_request plain_json (globals w) "feature-ws" "cap-1"
                  (JStr "fabric-token") in
  let admin := admin_request plain_json (JStr "ws-1") "dev@example.com"
                 (JStr "fabric-token") in
  let lookup := lookup_request g "octo" "analytics" (Some "feature") "ghp_example" in
  let base := lookup_request g "octo" "analytics" (Some "main") "ghp_example" in
  exists w',
    main (list reply) scripted no_identity plain_exn plain_json 5%nat (inr args) w =
      (Raises (ValueError "Could not find base branch 'main' in repo 'octo/analytics'."),
       w') /\
    events w' = (events w ++ [Http create; Http admin; Http lookup; Http base])%list.
Proof.
  intros args members r not_found w g create admin lookup base.
  apply (main_stops_without_base_branch (list reply) scripted no_identity plain_exn
           plain_json 5%nat args (JStr "fabric-token") w r members).
  - discriminate.
  - left. split; [discriminate|reflexivity].
  - reflexivity.
  - reflexivity.
  - reflexivity.
  - reflexivity.
  - cbn. discriminate.
  - reflexivity.
Defined.

(** A listing whose first entry is a string. *)
Lemma get_or_create_on_string_entry :
  let name := "GitHub PAT - octo/analytics" in
  let connection := JObj [("displayName", JStr name); ("id", JStr "c1")] in
  let r := json_response 200 (JArr [JStr "c0"; connection]) in
  let w := start [Responds r] in
  let rq := list_request plain_json (globals w) (JStr "fabric-token") in
  exists w',
    get_or_create_github_pat_connection (list reply) scripted plain_json name
      "ghp_example" (JStr "fabric-token") w = (Raises (AttributeError "get"), w') /\
    after (list reply) scripted [rq] w w'.
Proof.
  intros name connection r w rq.
  apply (get_or_create_raises_on_malformed_entry (list reply) scripted plain_json name
           "ghp_example" (JStr "fabric-token") w r [] (JStr "c0") [connection]).
  - discriminate.
  - reflexivity.
  - split; [reflexivity|]. left. reflexivity.
  - reflexivity.
  - discriminate.
Defined.

(** A run without a Fabric token on the command line: the access token of
    the identity library authorizes the creation. *)
Example main_with_identity_token_computed :
  let issuing (tenant_id client_id user_name password : option string)
      : exn + list (string * json) :=
    inr [("access_token", JStr "issued-token")] in
  let w := mk_world initial_globals [Responds (mk_response 403 "Forbidden" [] None)]
             [] [] in
  let run :=
    main (list reply) scripted issuing plain_exn plain_json 5%nat
      (inr (args_with "" "ghp_example")) w in
  fst run = Raises (ValueError "Could not create Fabric workspace.") /\
  events (snd run) =
    [Http (create_request plain_json initial_globals "feature-ws" "cap-1"
             (JStr "issued-token"))].
Proof. vm_compute. repeat split. Qed.
